(** * go-slackbot: the matching and dispatch core

    A shallow embedding of the router ([SimpleRouter]), the routes
    ([Route]), the matchers and the context accessors of the package, and
    the properties of the matching algorithm and of the builder chain.

    Conventions of the embedding.
    - A Go call either returns or panics (nil dereference in a matcher,
      user code): [outcome].
    - Pointers that the core compares with nil or reads through are options;
      [None] is nil.
    - A [*Route] is owned by exactly one router and a subrouter by exactly
      one route ([newRoute] and [Subrouter] always allocate, and no builder
      accepts an existing Route or Router), so the object graph is a tree
      and is modelled as one; a mutation through a [*Route] is an update of
      that node at its position in the owning router.
    - The matchers of a route are its own: a matcher handed to
      [AddMatcher] is taken to be registered in that route only. *)

From Stdlib Require Import ZArith Ascii String.
From stdpp Require Import base list strings.

Local Open Scope string_scope.
Local Open Scope list_scope.

(** ** Outcomes of Go calls *)

Inductive outcome (A : Type) : Type :=
| Returns (a : A)
| Panics.
Arguments Returns {A} a.
Arguments Panics {A}.

#[global] Instance outcome_ret : MRet outcome := fun _ a => Returns a.
#[global] Instance outcome_bind : MBind outcome := fun _ _ k m =>
  match m with
  | Returns a => k a
  | Panics => Panics
  end.

(** ** Events, bots and contexts (context.go) *)

(** The fields of [slack.MessageEvent] that the core reads. *)
Record MessageEvent := mkMessageEvent {
  Channel : string;
  User : string;
  Text : string
}.

(** [*slack.MessageEvent]: nil, or an address together with the event found
    there (events are not written during dispatch). *)
Record MessageRef := mkMessageRef {
  msg_addr : nat;
  msg_event : MessageEvent
}.
Definition MessagePtr := option MessageRef.

(** [*Bot]: nil, or the address of a Bot; the core hands it on and never
    reads through it. *)
Definition BotPtr := option nat.

(** [type key int] with its two constants. *)
Inductive key := bot_context_key | message_context_key.

(** A context key is an [interface{}]: a value of the package's unexported
    [key] type, or a value of some type of another package (which never
    compares equal to a [key]). *)
Inductive ctxKey :=
| PkgKey (k : key)
| ForeignKey (n : nat).

#[global] Instance key_eq_dec : EqDecision key.
Proof. solve_decision. Defined.
#[global] Instance ctxKey_eq_dec : EqDecision ctxKey.
Proof. solve_decision. Defined.

(** The dynamically typed values a context holds. *)
Inductive any :=
| AnyBot (b : BotPtr)
| AnyMessage (m : MessagePtr)
| AnyOther (n : nat).

(** [context.Context]: [context.Background()] extended by
    [context.WithValue]. The nil interface value is not a context. *)
Inductive Context :=
| Background
| WithValue (parent : Context) (k : ctxKey) (v : any).

(** [ctx.Value(k)]: the innermost binding of [k]; [None] is the nil
    interface. *)
Fixpoint Value (ctx : Context) (k : ctxKey) : option any :=
  match ctx with
  | Background => None
  | WithValue parent k' v => if decide (k = k') then Some v else Value parent k
  end.

(** Whether some layer of the context binds [k]. *)
Fixpoint binds (ctx : Context) (k : ctxKey) : bool :=
  match ctx with
  | Background => false
  | WithValue parent k' v => bool_decide (k = k') || binds parent k
  end.

Definition BotFromContext (ctx : Context) : BotPtr :=
  match Value ctx (PkgKey bot_context_key) with
  | Some (AnyBot result) => result
  | _ => None
  end.

Definition AddBotToContext (ctx : Context) (bot : BotPtr) : Context :=
  WithValue ctx (PkgKey bot_context_key) (AnyBot bot).

Definition MessageFromContext (ctx : Context) : MessagePtr :=
  match Value ctx (PkgKey message_context_key) with
  | Some (AnyMessage result) => result
  | _ => None
  end.

Definition AddMessageToContext (ctx : Context) (msg : MessagePtr) : Context :=
  WithValue ctx (PkgKey message_context_key) (AnyMessage msg).

(** ** Handlers, preprocessors, matchers *)

(** [type MessageType int]. *)
Definition MessageType := Z.
Definition DirectMessage : MessageType := 0%Z.
Definition DirectMention : MessageType := 1%Z.

(** A non-nil [Handler] value: a function supplied by the user, or the
    closure that [Route.MessageHandler] builds around a [MessageHandler]
    (which itself may be nil). Functions are identified by a number. *)
Inductive HandlerFn :=
| UserHandler (id : nat)
| MessageHandlerClosure (fn : option nat).

(** [type Handler func(context.Context)]; [None] is the nil function. *)
Definition Handler := option HandlerFn.

(** [type Preprocessor func(context.Context) context.Context]. *)
Definition Preprocessor := option (Context -> outcome Context).

(** [error]; [None] is nil. *)
Definition error := option string.

(** A compiled [*regexp.Regexp], known by what [MatchString] answers. *)
Record Regexp := mkRegexp { MatchString : string -> bool }.

(** The implementers of the [Matcher] interface: the two of the package and
    a matcher supplied through [AddMatcher], which keeps the identity it is
    given and whose [Match] may use it. *)
Inductive Matcher :=
| RegexpMatcher (regex : option Regexp) (botUserID : string)
| TypesMatcher (types : list MessageType) (botUserID : string)
| CustomMatcher (botUserID : string)
                (Match : string -> Context -> outcome (bool * Context)).

Definition Matcher_botUserID (m : Matcher) : string :=
  match m with
  | RegexpMatcher _ b => b
  | TypesMatcher _ b => b
  | CustomMatcher b _ => b
  end.

Definition Matcher_SetBotID (botID : string) (m : Matcher) : Matcher :=
  match m with
  | RegexpMatcher re _ => RegexpMatcher re botID
  | TypesMatcher ts _ => TypesMatcher ts botID
  | CustomMatcher _ f => CustomMatcher botID f
  end.

(** ** Routes and routers *)

Inductive Route := mkRoute {
  Route_handler : Handler;
  Route_err : error;
  Route_matchers : list Matcher;
  Route_subrouter : option SimpleRouter;
  Route_preprocessor : Preprocessor;
  Route_botUserID : string;
  Route_talkToSelf : bool
}
with SimpleRouter := mkRouter {
  Router_routes : list Route;
  Router_botUserID : string;
  Router_err : error;
  Router_talkToSelf : bool
}.

(** [&Route{err: err, talkToSelf: selftalk}] and [&SimpleRouter{}]. *)
Definition new_Route (err : error) (selftalk : bool) : Route :=
  mkRoute None err [] None None "" selftalk.

Definition new_SimpleRouter : SimpleRouter := mkRouter [] "" None false.

(** [RouteMatch]: the route the [*Route] field points to (nil before a
    match) and the handler. [Match] is handed a pointer to such a record,
    as the dispatcher does with [&match], and writes through it; the
    record is threaded through the calls. *)
Record RouteMatch := mkRouteMatch {
  Match_Route : option Route;
  Match_Handler : Handler
}.

(** The functions the core calls that are not among the sources read
    here: the message helpers of the package and [regexp.Compile]. A helper
    receives the event pointer as the matcher passes it, nil included, and
    may panic on it. [regexp_Compile] returns the compiled expression or
    the error; in Go the expression is nil when the error is not. *)
Class Externals := {
  StripDirectMention : string -> string;
  IsDirectMessage : MessagePtr -> outcome bool;
  IsDirectMention : MessagePtr -> string -> outcome bool;
  regexp_Compile : string -> Regexp + string
}.

Section Core.

Context {ext : Externals}.

(** *** Matchers (route.go) *)

Definition RegexpMatcher_Match (regex : option Regexp) (ctx : Context)
  : outcome (bool * Context) :=
  match MessageFromContext ctx with
  | None => Panics
  | Some msg =>
      let text := StripDirectMention (Text (msg_event msg)) in
      match regex with
      | None => Panics
      | Some re => Returns (MatchString re text, ctx)
      end
  end.

Fixpoint TypesMatcher_loop (msg : MessagePtr) (botUserID : string)
    (types : list MessageType) : outcome bool :=
  match types with
  | [] => Returns false
  | t :: types' =>
      if (t =? DirectMessage)%Z then
        b ← IsDirectMessage msg;
        if b : bool then Returns true
        else TypesMatcher_loop msg botUserID types'
      else if (t =? DirectMention)%Z then
        b ← IsDirectMention msg botUserID;
        if b : bool then Returns true
        else TypesMatcher_loop msg botUserID types'
      else TypesMatcher_loop msg botUserID types'
  end.

Definition TypesMatcher_Match (types : list MessageType) (botUserID : string)
    (ctx : Context) : outcome (bool * Context) :=
  let msg := MessageFromContext ctx in
  b ← TypesMatcher_loop msg botUserID types;
  Returns (b, ctx).

Definition Matcher_Match (m : Matcher) (ctx : Context)
  : outcome (bool * Context) :=
  match m with
  | RegexpMatcher regex _ => RegexpMatcher_Match regex ctx
  | TypesMatcher types botUserID => TypesMatcher_Match types botUserID ctx
  | CustomMatcher botUserID f => f botUserID ctx
  end.

(** *** Route.Match and SimpleRouter.Match *)

(** The loop over [r.matchers]: the first matcher that does not match
    ends it, with the context that matcher returned. *)
Fixpoint matchers_loop (ms : list Matcher) (ctx : Context)
  : outcome (bool * Context) :=
  match ms with
  | [] => Returns (true, ctx)
  | m :: ms' =>
      '(matched, ctx') ← Matcher_Match m ctx;
      if matched : bool then matchers_loop ms' ctx' else Returns (false, ctx')
  end.

(** [if ev := MessageFromContext(ctx); ev != nil && !r.talkToSelf &&
    r.botUserID == ev.User]. *)
Definition selfTalkBlocked (talkToSelf : bool) (botUserID : string)
    (ctx : Context) : bool :=
  match MessageFromContext ctx with
  | None => false
  | Some ev => negb talkToSelf && bool_decide (botUserID = User (msg_event ev))
  end.

Definition apply_preprocessor (p : Preprocessor) (ctx : Context)
  : outcome Context :=
  match p with
  | None => Returns ctx
  | Some f => f ctx
  end.

Section RouterLoop.
Variable route_Match :
  Route -> Context -> RouteMatch -> outcome (bool * Context * RouteMatch).

(** The loop over [r.routes]. The context a route returns is bound by
    the [if] statement only: every route receives the router's [ctx],
    and so does the final [return false, ctx]. *)
Fixpoint routes_loop (routes : list Route) (ctx : Context)
    (match_ : RouteMatch) : outcome (bool * Context * RouteMatch) :=
  match routes with
  | [] => Returns (false, ctx, match_)
  | route :: routes' =>
      match route_Match route ctx match_ with
      | Panics => Panics
      | Returns (true, ctx', match') => Returns (true, ctx', match')
      | Returns (false, _, match') => routes_loop routes' ctx match'
      end
  end.
End RouterLoop.

Fixpoint Route_Match (r : Route) (ctx : Context) (match_ : RouteMatch)
    {struct r} : outcome (bool * Context * RouteMatch) :=
  match Route_err r with
  | Some _ => Returns (false, ctx, match_)
  | None =>
  match Route_handler r with
  | None => Returns (false, ctx, match_)
  | Some _ =>
  if selfTalkBlocked (Route_talkToSelf r) (Route_botUserID r) ctx
  then Returns (false, ctx, match_)
  else
    match apply_preprocessor (Route_preprocessor r) ctx with
    | Panics => Panics
    | Returns ctx1 =>
    match matchers_loop (Route_matchers r) ctx1 with
    | Panics => Panics
    | Returns (false, ctx2) => Returns (false, ctx2, match_)
    | Returns (true, ctx2) =>
        match Route_subrouter r with
        | Some sub => Router_Match sub ctx2 match_
        | None =>
            Returns (true, ctx2, mkRouteMatch (Some r) (Route_handler r))
        end
    end
    end
  end
  end
with Router_Match (r : SimpleRouter) (ctx : Context) (match_ : RouteMatch)
    {struct r} : outcome (bool * Context * RouteMatch) :=
  match Router_err r with
  | Some _ => Returns (false, ctx, match_)
  | None => routes_loop Route_Match (Router_routes r) ctx match_
  end.

(** *** Route builders (route.go)

    A method with a [*Route] receiver is a function from the route before
    the call to the route after it, paired with the value returned when
    that is not the receiver itself. *)

Definition Route_setBotID (botID : string) (r : Route) : Route :=
  mkRoute (Route_handler r) (Route_err r)
          (map (Matcher_SetBotID botID) (Route_matchers r))
          (Route_subrouter r) (Route_preprocessor r)
          botID (Route_talkToSelf r).

Definition Route_TalkToSelf (r : Route) : Route :=
  mkRoute (Route_handler r) (Route_err r) (Route_matchers r)
          (Route_subrouter r) (Route_preprocessor r)
          (Route_botUserID r) true.

Definition Route_NoTalkToSelf (r : Route) : Route :=
  mkRoute (Route_handler r) (Route_err r) (Route_matchers r)
          (Route_subrouter r) (Route_preprocessor r)
          (Route_botUserID r) false.

Definition Route_AddMatcher (m : Matcher) (r : Route) : Route :=
  mkRoute (Route_handler r) (Route_err r) (Route_matchers r ++ [m])
          (Route_subrouter r) (Route_preprocessor r)
          (Route_botUserID r) (Route_talkToSelf r).

Definition Route_set_err (e : error) (r : Route) : Route :=
  mkRoute (Route_handler r) e (Route_matchers r)
          (Route_subrouter r) (Route_preprocessor r)
          (Route_botUserID r) (Route_talkToSelf r).

(** [re, err := regexp.Compile(regex)]; on failure [re] is nil. *)
Definition Route_addRegexpMatcher (regex : string) (r : Route) : Route :=
  match regexp_Compile regex with
  | inl re => Route_AddMatcher (RegexpMatcher (Some re) "") r
  | inr msg =>
      Route_AddMatcher (RegexpMatcher None "") (Route_set_err (Some msg) r)
  end.

Definition Route_Hear (regex : string) (r : Route) : Route :=
  Route_addRegexpMatcher regex r.

Definition Route_addTypesMatcher (types : list MessageType) (r : Route)
  : Route :=
  Route_AddMatcher (TypesMatcher types (Route_botUserID r)) r.

Definition Route_Messages (types : list MessageType) (r : Route) : Route :=
  Route_addTypesMatcher types r.

Definition Route_Handler (handler : Handler) (r : Route) : Route * error :=
  match Route_err r with
  | Some e => (r, Some e)
  | None =>
      (mkRoute handler (Route_err r) (Route_matchers r)
               (Route_subrouter r) (Route_preprocessor r)
               (Route_botUserID r) (Route_talkToSelf r),
       None)
  end.

Definition Route_MessageHandler (fn : option nat) (r : Route)
  : Route * error :=
  Route_Handler (Some (MessageHandlerClosure fn)) r.

Definition Route_Preprocess (fn : Preprocessor) (r : Route) : Route :=
  mkRoute (Route_handler r) (Route_err r) (Route_matchers r)
          (Route_subrouter r) fn
          (Route_botUserID r) (Route_talkToSelf r).

(** [&SimpleRouter{err: r.err}] is attached; it is also the value
    returned. *)
Definition Route_Subrouter (r : Route) : Route :=
  mkRoute (Route_handler r) (Route_err r) (Route_matchers r)
          (Some (mkRouter [] "" (Route_err r) false))
          (Route_preprocessor r)
          (Route_botUserID r) (Route_talkToSelf r).

Definition Route_Err (r : Route) : error := Route_err r.

(** A call through the [Router] that [Subrouter()] returned. *)
Definition Route_on_subrouter (call : SimpleRouter -> SimpleRouter)
    (r : Route) : Route :=
  mkRoute (Route_handler r) (Route_err r) (Route_matchers r)
          (call <$> Route_subrouter r) (Route_preprocessor r)
          (Route_botUserID r) (Route_talkToSelf r).

(** *** Router builders (the SimpleRouter file)

    A [*Route] handed out by a router is the position of the route in
    [r.routes]; routes are appended only, so the position is stable. *)

Definition newRoute (selftalk : bool) (r : SimpleRouter)
  : SimpleRouter * nat :=
  let route := new_Route (Router_err r) selftalk in
  (mkRouter (Router_routes r ++ [route]) (Router_botUserID r)
            (Router_err r) (Router_talkToSelf r),
   length (Router_routes r)).

(** A call [p.method(...)] through the [*Route] at position [p]. *)
Definition update_route (p : nat) (method : Route -> Route)
    (r : SimpleRouter) : SimpleRouter :=
  mkRouter (alter method p (Router_routes r)) (Router_botUserID r)
           (Router_err r) (Router_talkToSelf r).

Definition call_route {A} (p : nat) (method : Route -> Route * A)
    (absent : A) (r : SimpleRouter) : SimpleRouter * A :=
  match Router_routes r !! p with
  | Some route => (update_route p (fun _ => (method route).1) r,
                   (method route).2)
  | None => (r, absent)
  end.

Definition Router_Hear (regex : string) (r : SimpleRouter)
  : SimpleRouter * nat :=
  let '(r1, p) := newRoute (Router_talkToSelf r) r in
  (update_route p (Route_Hear regex) r1, p).

Definition Router_Handler (handler : Handler) (r : SimpleRouter)
  : SimpleRouter * error :=
  let '(r1, p) := newRoute (Router_talkToSelf r) r in
  call_route p (Route_Handler handler) None r1.

Definition Router_MessageHandler (handler : option nat) (r : SimpleRouter)
  : SimpleRouter * error :=
  let '(r1, p) := newRoute (Router_talkToSelf r) r in
  call_route p (Route_MessageHandler handler) None r1.

Definition Router_Messages (types : list MessageType) (r : SimpleRouter)
  : SimpleRouter * nat :=
  let '(r1, p) := newRoute (Router_talkToSelf r) r in
  (update_route p (Route_Messages types) r1, p).

Definition Router_AddMatcher (m : Matcher) (r : SimpleRouter)
  : SimpleRouter * nat :=
  let '(r1, p) := newRoute (Router_talkToSelf r) r in
  (update_route p (Route_AddMatcher m) r1, p).

Definition Router_SetBotID (botID : string) (r : SimpleRouter)
  : SimpleRouter :=
  mkRouter (map (Route_setBotID botID) (Router_routes r)) botID
           (Router_err r) (Router_talkToSelf r).

Definition AlwaysTalkToSelf (r : SimpleRouter) : SimpleRouter :=
  mkRouter (Router_routes r) (Router_botUserID r) (Router_err r) true.

Definition NeverTalkToSelf (r : SimpleRouter) : SimpleRouter :=
  mkRouter (Router_routes r) (Router_botUserID r) (Router_err r) false.

Definition Router_TalkToSelf (r : SimpleRouter) : SimpleRouter * nat :=
  newRoute true r.

Definition Router_NoTalkToSelf (r : SimpleRouter) : SimpleRouter * nat :=
  newRoute false r.

Definition Router_Err (r : SimpleRouter) : error := Router_err r.

End Core.

(** ** Which route fills the output

    [Route_reaches r r']: [r'] is [r], or a route of the subrouter of a
    route that [r] reaches: the routes [r] may delegate to. *)
Inductive Route_reaches : Route -> Route -> Prop :=
| reaches_self r : Route_reaches r r
| reaches_sub r sub r1 r' :
    Route_subrouter r = Some sub ->
    In r1 (Router_routes sub) ->
    Route_reaches r1 r' ->
    Route_reaches r r'.

(** The output record was written by a route without subrouter that [r]
    reaches: it holds that route and its (non-nil) handler. *)
Definition filled_from (r : Route) (o : RouteMatch) : Prop :=
  exists r' h,
    Route_reaches r r' /\ Route_subrouter r' = None /\
    Route_handler r' = Some h /\
    o = mkRouteMatch (Some r') (Some h).

(** ** Notions used in the statements *)

Section Notions.

Context {ext : Externals}.

(** A call of [Match] that returned [true]. *)
Definition matched (res : outcome (bool * Context * RouteMatch)) : Prop :=
  exists c o, res = Returns (true, c, o).

(** The route returns no-match on [ctx] (with whatever context). *)
Definition refuses (ctx : Context) (out : RouteMatch) (r : Route) : Prop :=
  exists c o, Route_Match r ctx out = Returns (false, c, o).

Definition Route_frame (r : Route) : Prop :=
  forall ctx out b c o,
    Route_Match r ctx out = Returns (b, c, o) ->
    if b then filled_from r o else o = out.

Definition Router_frame (s : SimpleRouter) : Prop :=
  forall ctx out b c o,
    Router_Match s ctx out = Returns (b, c, o) ->
    if b then exists r, In r (Router_routes s) /\ filled_from r o
    else o = out /\ c = ctx.

(** [after] has the routes of [before], unchanged and in the same
    places, and one more route at the end, whose self-talk flag is
    [flag]. *)
Definition registers (before after : SimpleRouter) (flag : bool) : Prop :=
  exists route,
    Router_routes after = Router_routes before ++ [route] /\
    Route_talkToSelf route = flag.

(** A route builder that leaves a build error in place. *)
Definition keeps_error (build : Route -> Route) : Prop :=
  forall r e, Route_err r = Some e -> Route_err (build r) = Some e.

(** A router builder on a router with a build error: the router keeps
    the error and the route it registers carries a build error too. *)
Definition registers_errored (build : SimpleRouter -> SimpleRouter)
  : Prop :=
  forall s e, Router_err s = Some e ->
    Router_err (build s) = Some e /\
    exists route, Router_routes (build s) = Router_routes s ++ [route] /\
                  Route_err route <> None.

End Notions.

(** ** Chains of builder calls on a route

    The methods of [*Route] that build the route, as values, and a chain
    [rt.m1(...).m2(...)...] as the list of its calls, first call first.
    ([Handler] and [MessageHandler] end a chain in Go, as they return the
    error; a later statement may still call a method on the route.) *)
Inductive RouteCall :=
| CallTalkToSelf
| CallNoTalkToSelf
| CallHear (regex : string)
| CallMessages (types : list MessageType)
| CallHandler (handler : Handler)
| CallMessageHandler (fn : option nat)
| CallPreprocess (fn : Preprocessor)
| CallSubrouter
| CallAddMatcher (m : Matcher).

Definition sets_handler (c : RouteCall) : bool :=
  match c with
  | CallHandler _ | CallMessageHandler _ => true
  | _ => false
  end.

(** The matchers of the package, as opposed to one supplied through
    [AddMatcher]. *)
Definition package_matcher (m : Matcher) : bool :=
  match m with
  | RegexpMatcher _ _ | TypesMatcher _ _ => true
  | CustomMatcher _ _ => false
  end.



(** A route without preprocessor whose matchers are those of the package,
    and whose subrouter, if any, holds such routes only. *)
Fixpoint Route_plain (r : Route) : bool :=
  match r with
  | mkRoute _ _ matchers subrouter preprocessor _ _ =>
      match preprocessor with None => true | Some _ => false end &&
      forallb package_matcher matchers &&
      match subrouter with
      | None => true
      | Some sub => Router_plain sub
      end
  end
with Router_plain (s : SimpleRouter) : bool :=
  match s with
  | mkRouter routes _ _ _ => forallb Route_plain routes
  end.

(** A route that [Route.Match] does not refuse at its first two tests:
    no build error and a handler. *)
Definition Route_live (r : Route) : bool :=
  match Route_err r, Route_handler r with
  | None, Some _ => true
  | _, _ => false
  end.

(** [Bot] (bot.go): the embedded [SimpleRouter] and the identity; the
    connection fields are not read by the functions modelled here. *)
Record Bot := mkBot {
  Bot_SimpleRouter : SimpleRouter;
  Bot_botUserID : string
}.

Definition BotUserID (b : Bot) : string := Bot_botUserID b.

Definition Bot_setBotID (ID : string) (b : Bot) : Bot :=
  mkBot (Router_SetBotID ID (Bot_SimpleRouter b)) ID.

(** What the closure of [Route.MessageHandler] passes to [fn]:
    [fn(ctx, BotFromContext(ctx), MessageFromContext(ctx))]. *)
Definition MessageHandler_arguments (ctx : Context)
  : Context * BotPtr * MessagePtr :=
  (ctx, BotFromContext ctx, MessageFromContext ctx).

Section Dispatch.

Context {ext : Externals}.

Definition Route_call (c : RouteCall) (r : Route) : Route :=
  match c with
  | CallTalkToSelf => Route_TalkToSelf r
  | CallNoTalkToSelf => Route_NoTalkToSelf r
  | CallHear regex => Route_Hear regex r
  | CallMessages types => Route_Messages types r
  | CallHandler handler => (Route_Handler handler r).1
  | CallMessageHandler fn => (Route_MessageHandler fn r).1
  | CallPreprocess fn => Route_Preprocess fn r
  | CallSubrouter => Route_Subrouter r
  | CallAddMatcher m => Route_AddMatcher m r
  end.

Definition Route_calls (cs : list RouteCall) (r : Route) : Route :=
  fold_left (fun r c => Route_call c r) cs r.

(** The error of the last [Hear] of the chain whose pattern does not
    compile, if there is one. *)
Fixpoint last_compile_error (cs : list RouteCall) (e : error) : error :=
  match cs with
  | [] => e
  | CallHear regex :: cs' =>
      match regexp_Compile regex with
      | inl _ => last_compile_error cs' e
      | inr msg => last_compile_error cs' (Some msg)
      end
  | _ :: cs' => last_compile_error cs' e
  end.

(** The [*slack.MessageEvent] case of the event loop of [Bot.Run], for the
    bot at address [self]: the context is built, the router is asked, and
    on a match with a non-nil handler the handler is called with the
    context the match returned. The result is that call, if any. *)
Definition Bot_dispatch (self : nat) (b : Bot) (ev : MessagePtr)
  : outcome (option (HandlerFn * Context)) :=
  let ctx := AddBotToContext Background (Some self) in
  let ctx := AddMessageToContext ctx ev in
  let match_ := mkRouteMatch None None in
  '(matched, ctx', match') ← Router_Match (Bot_SimpleRouter b) ctx match_;
  if (matched : bool) then
    match Match_Handler match' with
    | Some handler => Returns (Some (handler, ctx'))
    | None => Returns None
    end
  else Returns None.

(** [Match] called with another output record: what it returns, given
    what it returned with the first one. *)
Definition with_output (out' : RouteMatch)
    (res : outcome (bool * Context * RouteMatch))
  : outcome (bool * Context * RouteMatch) :=
  match res with
  | Returns (false, c, _) => Returns (false, c, out')
  | other => other
  end.

(** The context comes back as it was given. *)
Definition Route_keeps (r : Route) : Prop :=
  Route_plain r = true ->
  forall ctx out b c o, Route_Match r ctx out = Returns (b, c, o) -> c = ctx.

Definition Router_keeps (s : SimpleRouter) : Prop :=
  Router_plain s = true ->
  forall ctx out b c o, Router_Match s ctx out = Returns (b, c, o) -> c = ctx.

End Dispatch.

(** ** Concrete objects for the examples *)

Module Sample.

Fixpoint after_char (c : ascii) (s : string) : option string :=
  match s with
  | EmptyString => None
  | String a s' => if Ascii.eqb a c then Some s' else after_char c s'
  end.

Fixpoint drop_while (p : ascii -> bool) (s : string) : string :=
  match s with
  | EmptyString => EmptyString
  | String a s' => if p a then drop_while p s' else s
  end.

(** Modelled from the spec: [StripDirectMention], which is not among the
    sources. It removes a leading address of the form [<@...>] together
    with the colons and blanks after it, and leaves any other text as it
    is. *)
Definition strip (text : string) : string :=
  match text with
  | String "<" (String "@" rest) =>
      match after_char ">" rest with
      | Some tail =>
          drop_while (Ascii.eqb " ") (drop_while (Ascii.eqb ":") tail)
      | None => text
      end
  | _ => text
  end.

(** Modelled from the spec: [IsDirectMessage], which is not among the
    sources. A direct message is an event delivered on a private
    one-to-one channel, whose identifier starts with D. The helper reads
    through the event pointer. *)
Definition is_dm (msg : MessagePtr) : outcome bool :=
  match msg with
  | None => Panics
  | Some m => Returns (String.prefix "D" (Channel (msg_event m)))
  end.

(** Modelled from the spec: [IsDirectMention], which is not among the
    sources. A direct mention is an event whose text begins with the
    address of the given identity. The helper reads through the event
    pointer. *)
Definition is_mention (msg : MessagePtr) (userID : string) : outcome bool :=
  match msg with
  | None => Panics
  | Some m =>
      Returns (String.prefix (String.append "<@" (String.append userID ">"))
                             (Text (msg_event m)))
  end.

(** [regexp.Compile] on the patterns of the examples: an unclosed
    parenthesis is an error, any other pattern is read as a literal for
    the whole text. *)
Definition compile (regex : string) : Regexp + string :=
  if String.eqb regex "("
  then inr "error parsing regexp: missing closing ): `(`"
  else inl (mkRegexp (fun text => String.eqb text regex)).

Definition externals : Externals :=
  {| StripDirectMention := strip;
     IsDirectMessage := is_dm;
     IsDirectMention := is_mention;
     regexp_Compile := compile |}.

Definition hA : Handler := Some (UserHandler 1).
Definition hB : Handler := Some (UserHandler 2).

(** The context the dispatcher builds for an event. *)
Definition ctx_of (ev : MessageEvent) : Context :=
  AddMessageToContext (AddBotToContext Background (Some 0%nat))
                      (Some (mkMessageRef 1 ev)).

Definition ping : MessageEvent := mkMessageEvent "C1" "U2" "ping".
Definition own_ping : MessageEvent := mkMessageEvent "C1" "UBOT" "ping".
Definition mention : MessageEvent :=
  mkMessageEvent "C1" "U2" "<@UBOT> ping".

(** Matchers supplied through [AddMatcher]. *)
Definition always : Matcher :=
  CustomMatcher "" (fun _ ctx => Returns (true, ctx)).
Definition tag_and_refuse : Matcher :=
  CustomMatcher ""
    (fun _ ctx => Returns (false, WithValue ctx (ForeignKey 7) (AnyOther 1))).

Definition out0 : RouteMatch := mkRouteMatch None None.

Section Built.
Existing Instance externals.

(** [rt := r.AddMatcher(always); rt.Subrouter().Handler(hB)]: a gate
    in front of a subrouter, without a handler of its own. *)
Definition inner : SimpleRouter :=
  (Router_Handler hB new_SimpleRouter).1.
Definition gate : Route :=
  Route_on_subrouter (fun s => (Router_Handler hB s).1)
    (Route_Subrouter (Route_AddMatcher always (new_Route None false))).

(** The same with [rt.Handler(hA)], after [SetBotID("UBOT")] reached
    the route. *)
Definition gate_with_handler : Route :=
  Route_setBotID "UBOT" (Route_Handler hA gate).1.

(** The routes that [r.Hear("ping").Handler(hA)],
    [r.AddMatcher(always).Handler(hB)] and
    [r.AddMatcher(tag_and_refuse).Handler(hA)] register on a new
    router. *)
Definition hear_ping : Route :=
  (Route_Handler hA (Route_Hear "ping" (new_Route None false))).1.
Definition catch_all : Route :=
  (Route_Handler hB (Route_AddMatcher always (new_Route None false))).1.
Definition refuser : Route :=
  (Route_Handler hA
     (Route_AddMatcher tag_and_refuse (new_Route None false))).1.

(** [catch_all] once [SetBotID("UBOT")] reached it. *)
Definition guarded : Route := Route_setBotID "UBOT" catch_all.

(** A route whose [Hear] was given a pattern that does not compile. *)
Definition broken : Route := Route_Hear "(" (new_Route None false).

(** [r.Hear("ping").Handler(hA); r.AddMatcher(always).Handler(hB)]. *)
Definition two_routes : SimpleRouter :=
  let '(r1, p) := Router_Hear "ping" new_SimpleRouter in
  let r2 := update_route p (fun rt => (Route_Handler hA rt).1) r1 in
  let '(r3, q) := Router_AddMatcher always r2 in
  update_route q (fun rt => (Route_Handler hB rt).1) r3.

(** A router whose only route transforms its context and then fails:
    [r.AddMatcher(tag_and_refuse).Handler(hA)]. *)
Definition refusing : SimpleRouter :=
  let '(r1, p) := Router_AddMatcher tag_and_refuse new_SimpleRouter in
  update_route p (fun rt => (Route_Handler hA rt).1) r1.

(** [rt := r.Messages(DirectMention); rt.Handler(hA);
    rt.Subrouter().Messages(DirectMention).Handler(hB)]. *)
Definition nested : SimpleRouter :=
  let '(r1, p) := Router_Messages [DirectMention] new_SimpleRouter in
  let r2 := update_route p (fun rt => (Route_Handler hA rt).1) r1 in
  let r3 := update_route p Route_Subrouter r2 in
  update_route p
    (Route_on_subrouter (fun s =>
       let '(s1, q) := Router_Messages [DirectMention] s in
       update_route q (fun rt => (Route_Handler hB rt).1) s1))
    r3.

(** [r.Hear("ping").MessageHandler(fn)] on a new router, and a bot with
    that router. *)
Definition only_ping : SimpleRouter :=
  let '(r1, p) := Router_Hear "ping" new_SimpleRouter in
  update_route p (fun rt => (Route_MessageHandler (Some 7%nat) rt).1) r1.
Definition ping_bot : Bot := mkBot only_ping "".

(** [rt := r.AddMatcher(always); rt.Handler(hA);
    rt.Subrouter().Handler(hC); r.AddMatcher(always).Handler(hB)]: a
    route with a handler and a subrouter, and a later route. *)
Definition hC : Handler := Some (UserHandler 3).
Definition gate_hC : Route :=
  Route_on_subrouter (fun s => (Router_Handler hC s).1)
    (Route_Subrouter
       (Route_Handler hA (Route_AddMatcher always (new_Route None false))).1).
Definition gated : SimpleRouter :=
  let '(r1, p) := Router_AddMatcher always new_SimpleRouter in
  let r2 := update_route p (fun rt => (Route_Handler hA rt).1) r1 in
  let r3 := update_route p Route_Subrouter r2 in
  let r4 :=
    update_route p (Route_on_subrouter (fun s => (Router_Handler hC s).1))
                 r3 in
  let '(r5, q) := Router_AddMatcher always r4 in
  update_route q (fun rt => (Route_Handler hB rt).1) r5.
End Built.

End Sample.

(** * Properties *)

Section Properties.

Context {ext : Externals}.

(** ** Induction over the tree of routes and routers *)

Section TreeInd.
Variable P : Route -> Prop.
Variable Q : SimpleRouter -> Prop.
Hypothesis HRoute :
  forall r, (forall sub, Route_subrouter r = Some sub -> Q sub) -> P r.
Hypothesis HRouter :
  forall s, Forall P (Router_routes s) -> Q s.

Fixpoint Route_tree_ind (r : Route) : P r :=
  HRoute r
    (match r as r0
           return forall sub, Route_subrouter r0 = Some sub -> Q sub with
     | mkRoute _ _ _ o _ _ _ =>
         match o as o0 return forall sub, o0 = Some sub -> Q sub with
         | Some s0 => fun sub E =>
             eq_ind s0 Q (Router_tree_ind s0) sub
                    (f_equal (fun x => default s0 x) E)
         | None => fun sub E =>
             False_ind _
               (eq_ind None
                  (fun x => match x with Some _ => False | None => True end)
                  I (Some sub) E)
         end
     end)
with Router_tree_ind (s : SimpleRouter) : Q s :=
  HRouter s
    (match s as s0 return Forall P (Router_routes s0) with
     | mkRouter rs _ _ _ =>
         (fix all (l : list Route) : Forall P l :=
            match l with
            | [] => @List.Forall_nil Route P
            | r :: l' =>
                @List.Forall_cons Route P r l' (Route_tree_ind r) (all l')
            end) rs
     end).
End TreeInd.

(** ** Unfolding *)

Lemma Route_Match_eq (r : Route) ctx out :
  Route_Match r ctx out =
  match Route_err r with
  | Some _ => Returns (false, ctx, out)
  | None =>
  match Route_handler r with
  | None => Returns (false, ctx, out)
  | Some _ =>
  if selfTalkBlocked (Route_talkToSelf r) (Route_botUserID r) ctx
  then Returns (false, ctx, out)
  else
    match apply_preprocessor (Route_preprocessor r) ctx with
    | Panics => Panics
    | Returns ctx1 =>
    match matchers_loop (Route_matchers r) ctx1 with
    | Panics => Panics
    | Returns (false, ctx2) => Returns (false, ctx2, out)
    | Returns (true, ctx2) =>
        match Route_subrouter r with
        | Some sub => Router_Match sub ctx2 out
        | None => Returns (true, ctx2, mkRouteMatch (Some r) (Route_handler r))
        end
    end
    end
  end
  end.
Proof. destruct r; reflexivity. Qed.

Lemma Router_Match_eq (s : SimpleRouter) ctx out :
  Router_Match s ctx out =
  match Router_err s with
  | Some _ => Returns (false, ctx, out)
  | None => routes_loop Route_Match (Router_routes s) ctx out
  end.
Proof. destruct s; reflexivity. Qed.

(** ** The output record is written on a full match only *)

Lemma routes_loop_frame (rs : list Route) :
  Forall Route_frame rs ->
  forall ctx out b c o,
    routes_loop Route_Match rs ctx out = Returns (b, c, o) ->
    if b then exists r, In r rs /\ filled_from r o
    else o = out /\ c = ctx.
Proof.
  induction 1 as [|r rs Hr _ IH]; intros ctx out b c o; simpl.
  - intros [= <- <- <-]. split; reflexivity.
  - destruct (Route_Match r ctx out) as [[[b1 c1] o1]|] eqn:E; [|discriminate].
    specialize (Hr _ _ _ _ _ E). destruct b1.
    + intros [= <- <- <-]. exists r. split; [left; reflexivity | exact Hr].
    + subst o1. intros H. specialize (IH _ _ _ _ _ H). destruct b.
      * destruct IH as (r' & Hin & Hf). exists r'. split; [right|]; assumption.
      * exact IH.
Qed.

Lemma frame_all : (forall r, Route_frame r) /\ (forall s, Router_frame s).
Proof.
  assert (HR : forall r,
             (forall sub, Route_subrouter r = Some sub -> Router_frame sub) ->
             Route_frame r).
  { intros r IH ctx out b c o. rewrite Route_Match_eq.
    destruct (Route_err r); [intros [= <- <- <-]; reflexivity|].
    destruct (Route_handler r) as [h|] eqn:Eh; [|intros [= <- <- <-]; reflexivity].
    destruct (selfTalkBlocked _ _ _); [intros [= <- <- <-]; reflexivity|].
    destruct (apply_preprocessor _ _) as [c1|]; [|discriminate].
    destruct (matchers_loop _ _) as [[[] c2]|]; [| |discriminate].
    - destruct (Route_subrouter r) as [sub|] eqn:Es.
      + intros H. specialize (IH sub eq_refl _ _ _ _ _ H). destruct b.
        * destruct IH as (r1 & Hin & r' & h' & Hreach & Hsub & Hh & Ho).
          exists r', h'. split; [|auto].
          eapply reaches_sub; eassumption.
        * apply IH.
      + intros [= <- <- <-]. exists r, h. split; [constructor|auto].
    - intros [= <- <- <-]. reflexivity. }
  assert (HS : forall s, Forall Route_frame (Router_routes s) ->
                         Router_frame s).
  { intros s Hall ctx out b c o. rewrite Router_Match_eq.
    destruct (Router_err s); [intros [= <- <- <-]; split; reflexivity|].
    apply routes_loop_frame, Hall. }
  split.
  - exact (Route_tree_ind Route_frame Router_frame HR HS).
  - exact (Router_tree_ind Route_frame Router_frame HR HS).
Qed.

Lemma Route_no_match_frame (r : Route) ctx out c o :
  Route_Match r ctx out = Returns (false, c, o) -> o = out.
Proof. intros H. exact (proj1 frame_all r _ _ _ _ _ H). Qed.

(** C10: the output record is written on a full match only. When
    [Route.Match] or [SimpleRouter.Match] returns false, the Route and the
    Handler field of the record are what they were before the call; when
    it returns true, both fields are set, to the innermost matching route
    (a route without subrouter that the call reached) and to the handler
    of that route, which is not nil. *)
Theorem output_written_only_on_match :
  (forall (r : Route) ctx out b c o,
     Route_Match r ctx out = Returns (b, c, o) ->
     if b then
       exists r' h, Route_reaches r r' /\ Route_subrouter r' = None /\
                    Route_handler r' = Some h /\
                    Match_Route o = Some r' /\ Match_Handler o = Some h
     else Match_Route o = Match_Route out /\
          Match_Handler o = Match_Handler out) /\
  (forall (s : SimpleRouter) ctx out b c o,
     Router_Match s ctx out = Returns (b, c, o) ->
     if b then
       exists r r' h, In r (Router_routes s) /\ Route_reaches r r' /\
                      Route_subrouter r' = None /\
                      Route_handler r' = Some h /\
                      Match_Route o = Some r' /\ Match_Handler o = Some h
     else Match_Route o = Match_Route out /\
          Match_Handler o = Match_Handler out).
Proof.
  destruct frame_all as [HR HS]. split.
  - intros r ctx out b c o H. specialize (HR r _ _ _ _ _ H). destruct b.
    + destruct HR as (r' & h & Hreach & Hsub & Hh & ->).
      exists r', h. auto.
    + subst o. auto.
  - intros s ctx out b c o H. specialize (HS s _ _ _ _ _ H). destruct b.
    + destruct HS as (r & Hin & r' & h & Hreach & Hsub & Hh & ->).
      exists r, r', h. repeat split; assumption.
    + destruct HS as [-> _]. auto.
Qed.

(** ** No-match of a router *)

Lemma routes_loop_all_refuse (rs : list Route) ctx out :
  Forall (refuses ctx out) rs ->
  routes_loop Route_Match rs ctx out = Returns (false, ctx, out).
Proof.
  induction 1 as [|r rs (c & o & Hr) _ IH]; simpl; [reflexivity|].
  rewrite Hr. rewrite (Route_no_match_frame _ _ _ _ _ Hr). exact IH.
Qed.

(** C7: whenever [SimpleRouter.Match] returns false, the context it returns
    is the input context. That is what it returns when the router carries
    a build error, when it has no route, and when every route returns
    no-match, whatever context the routes returned with their no-match. *)
Theorem Router_no_match_returns_input_context (s : SimpleRouter) ctx out :
  (forall c o, Router_Match s ctx out = Returns (false, c, o) -> c = ctx) /\
  (Router_err s <> None ->
   Router_Match s ctx out = Returns (false, ctx, out)) /\
  (Router_routes s = [] ->
   Router_Match s ctx out = Returns (false, ctx, out)) /\
  (Forall (refuses ctx out) (Router_routes s) ->
   Router_Match s ctx out = Returns (false, ctx, out)).
Proof.
  repeat split.
  - intros c o H. exact (proj2 (proj2 frame_all s _ _ _ _ _ H)).
  - intros He. rewrite Router_Match_eq.
    destruct (Router_err s); [reflexivity | contradiction].
  - intros Hnil. rewrite Router_Match_eq, Hnil.
    destruct (Router_err s); reflexivity.
  - intros Hall. rewrite Router_Match_eq.
    destruct (Router_err s); [reflexivity|].
    apply routes_loop_all_refuse, Hall.
Qed.

(** C4: fail-closed. A router and a route whose build error is not nil
    return no-match on every context, whatever routes, matchers, handler,
    preprocessor or subrouter they hold; nothing of those is run. *)
Theorem build_error_fails_closed :
  (forall (s : SimpleRouter) ctx out,
     Router_Err s <> None ->
     Router_Match s ctx out = Returns (false, ctx, out)) /\
  (forall (r : Route) ctx out,
     Route_Err r <> None ->
     Route_Match r ctx out = Returns (false, ctx, out)).
Proof.
  split.
  - intros s ctx out He. rewrite Router_Match_eq. unfold Router_Err in He.
    destruct (Router_err s); [reflexivity | contradiction].
  - intros r ctx out He. rewrite Route_Match_eq. unfold Route_Err in He.
    destruct (Route_err r); [reflexivity | contradiction].
Qed.

(** ** First match wins *)

Lemma routes_loop_first_match (pre rest : list Route) (r1 : Route)
    ctx out c1 o1 :
  Forall (refuses ctx out) pre ->
  Route_Match r1 ctx out = Returns (true, c1, o1) ->
  routes_loop Route_Match (pre ++ r1 :: rest) ctx out = Returns (true, c1, o1).
Proof.
  intros Hpre H1.
  induction Hpre as [|r pre (c & o & Hr) _ IH]; simpl.
  - rewrite H1. reflexivity.
  - rewrite Hr. rewrite (Route_no_match_frame _ _ _ _ _ Hr). exact IH.
Qed.

(** C5, as the code has it: first match wins. Let a router without build
    error hold a route [r1] and, registered later, a route [r2], each of
    which matches the context on its own, the routes registered before
    [r1] returning no-match. Then [SimpleRouter.Match] returns the match
    of [r1]: the context and the output record that [Route.Match] of [r1]
    produces. The record holds [r1] and the handler of [r1] when [r1] has
    no subrouter; when [r1] has a subrouter, the record is the one the
    subrouter filled, with the route the subrouter matched and the
    handler of that route, not the handler of [r1]. The routes after [r1]
    are not consulted: the result is the same whatever stands in their
    place, [r2] included. *)
Theorem first_match_wins (pre mid post : list Route) (r1 r2 : Route)
    (botUserID : string) (talkToSelf : bool) ctx out c1 o1 :
  Forall (refuses ctx out) pre ->
  Route_Match r1 ctx out = Returns (true, c1, o1) ->
  matched (Route_Match r2 ctx out) ->
  Router_Match (mkRouter (pre ++ r1 :: mid ++ r2 :: post)
                         botUserID None talkToSelf) ctx out
    = Returns (true, c1, o1) /\
  (forall later,
     Router_Match (mkRouter (pre ++ r1 :: later) botUserID None talkToSelf)
                  ctx out
       = Returns (true, c1, o1)) /\
  (Route_subrouter r1 = None ->
   Match_Route o1 = Some r1 /\ Match_Handler o1 = Route_handler r1) /\
  (forall sub,
     Route_subrouter r1 = Some sub ->
     exists c' inner r' h',
       Router_Match sub c' out = Returns (true, c1, o1) /\
       In inner (Router_routes sub) /\ Route_reaches inner r' /\
       Route_subrouter r' = None /\ Route_handler r' = Some h' /\
       Match_Route o1 = Some r' /\ Match_Handler o1 = Some h').
Proof.
  intros Hpre H1 _. split; [|split; [|split]].
  - simpl. apply routes_loop_first_match; assumption.
  - intros later. simpl. apply routes_loop_first_match; assumption.
  - intros Hsub. rewrite Route_Match_eq, Hsub in H1.
    destruct (Route_err r1); [discriminate|].
    destruct (Route_handler r1); [|discriminate].
    destruct (selfTalkBlocked _ _ _); [discriminate|].
    destruct (apply_preprocessor _ _); [|discriminate].
    destruct (matchers_loop _ _) as [[[] ?]|]; [|discriminate..].
    injection H1 as _ <-. split; reflexivity.
  - intros sub Hsub. rewrite Route_Match_eq, Hsub in H1.
    destruct (Route_err r1); [discriminate|].
    destruct (Route_handler r1); [|discriminate].
    destruct (selfTalkBlocked _ _ _); [discriminate|].
    destruct (apply_preprocessor _ _); [|discriminate].
    destruct (matchers_loop _ _) as [[[] c2]|]; [|discriminate..].
    destruct (proj2 frame_all sub _ _ _ _ _ H1)
      as (inner & Hin & r' & h' & Hreach & Hnosub & Hh & ->).
    exists c2, inner, r', h'. repeat split; assumption.
Qed.

(** ** The self-talk filter *)

Lemma selfTalkBlocked_own (botUserID : string) ctx ev :
  MessageFromContext ctx = Some ev ->
  User (msg_event ev) = botUserID ->
  selfTalkBlocked false botUserID ctx = true.
Proof.
  intros Hev Hu. unfold selfTalkBlocked. rewrite Hev. simpl.
  apply bool_decide_eq_true. congruence.
Qed.

Lemma selfTalkBlocked_enabled (botUserID : string) ctx :
  selfTalkBlocked true botUserID ctx = false.
Proof. unfold selfTalkBlocked. destruct (MessageFromContext ctx); reflexivity. Qed.

(** C6: self-talk exclusion. On a route with self-talk disabled, an event
    whose author is the bot identity of the route gets no-match with the
    input context and the output record untouched; the preprocessor and
    the matchers are not run, so the answer is the same whatever they are
    (also when they would panic or rewrite the context). With self-talk
    enabled on that route and nothing else changed, the event goes through
    the rest of the algorithm: when the route has no build error, has a
    handler, and its matchers pass on the preprocessed context, it matches
    with its own handler, or hands over to its subrouter if it has one. *)
Theorem self_talk_filter_comes_first (r : Route) ctx out ev :
  MessageFromContext ctx = Some ev ->
  User (msg_event ev) = Route_botUserID r ->
  Route_talkToSelf r = false ->
  Route_Match r ctx out = Returns (false, ctx, out) /\
  (forall preprocessor matchers,
     Route_Match (mkRoute (Route_handler r) (Route_err r) matchers
                          (Route_subrouter r) preprocessor
                          (Route_botUserID r) false) ctx out
       = Returns (false, ctx, out)) /\
  (forall h c0 c1,
     Route_err r = None ->
     Route_handler r = Some h ->
     apply_preprocessor (Route_preprocessor r) ctx = Returns c0 ->
     matchers_loop (Route_matchers r) c0 = Returns (true, c1) ->
     Route_Match (Route_TalkToSelf r) ctx out =
       match Route_subrouter r with
       | Some sub => Router_Match sub c1 out
       | None =>
           Returns (true, c1,
                    mkRouteMatch (Some (Route_TalkToSelf r)) (Some h))
       end).
Proof.
  intros Hev Hu Ht.
  assert (Hblocked : forall pre ms,
             Route_Match (mkRoute (Route_handler r) (Route_err r) ms
                                  (Route_subrouter r) pre
                                  (Route_botUserID r) false) ctx out
               = Returns (false, ctx, out)).
  { intros pre ms. rewrite Route_Match_eq. simpl.
    destruct (Route_err r); [reflexivity|].
    destruct (Route_handler r); [|reflexivity].
    rewrite (selfTalkBlocked_own _ _ _ Hev Hu). reflexivity. }
  split; [|split].
  - specialize (Hblocked (Route_preprocessor r) (Route_matchers r)).
    destruct r; simpl in *. subst. exact Hblocked.
  - exact Hblocked.
  - intros h c0 c1 He Hh Hpre Hms. rewrite Route_Match_eq. simpl.
    rewrite He, Hh, selfTalkBlocked_enabled, Hpre, Hms. reflexivity.
Qed.

(** ** Subrouter delegation *)

(** C1, as the code has it: a route with a subrouter matches exactly when
    it carries no build error, has a handler of its own, its self-talk
    filter lets the event through, its preprocessor (if any) returns, all
    of its matchers pass on the preprocessed context, and the subrouter
    matches the context the matchers produced. The context and the output
    record are then those of the subrouter: the Route and Handler fields
    are a route reached through a route of the subrouter and the handler
    of that route, not the handler of the outer route. *)
Theorem subrouter_delegation (r : Route) (sub : SimpleRouter) ctx out :
  Route_subrouter r = Some sub ->
  (forall c o,
     Route_Match r ctx out = Returns (true, c, o) <->
     Route_err r = None /\ Route_handler r <> None /\
     selfTalkBlocked (Route_talkToSelf r) (Route_botUserID r) ctx = false /\
     exists c0 c1,
       apply_preprocessor (Route_preprocessor r) ctx = Returns c0 /\
       matchers_loop (Route_matchers r) c0 = Returns (true, c1) /\
       Router_Match sub c1 out = Returns (true, c, o)) /\
  (forall c o,
     Route_Match r ctx out = Returns (true, c, o) ->
     exists r1 r' h',
       In r1 (Router_routes sub) /\ Route_reaches r1 r' /\
       Route_handler r' = Some h' /\
       Match_Route o = Some r' /\ Match_Handler o = Some h').
Proof.
  intros Hsub.
  assert (Hiff : forall c o,
     Route_Match r ctx out = Returns (true, c, o) <->
     Route_err r = None /\ Route_handler r <> None /\
     selfTalkBlocked (Route_talkToSelf r) (Route_botUserID r) ctx = false /\
     exists c0 c1,
       apply_preprocessor (Route_preprocessor r) ctx = Returns c0 /\
       matchers_loop (Route_matchers r) c0 = Returns (true, c1) /\
       Router_Match sub c1 out = Returns (true, c, o)).
  { intros c o. rewrite Route_Match_eq, Hsub. split.
    - destruct (Route_err r); [discriminate|].
      destruct (Route_handler r); [|discriminate].
      destruct (selfTalkBlocked _ _ _); [discriminate|].
      destruct (apply_preprocessor _ _) as [c0|]; [|discriminate].
      destruct (matchers_loop _ _) as [[[] c1]|] eqn:Hms; [|discriminate..].
      intros H. split; [reflexivity|]. split; [discriminate|].
      split; [reflexivity|]. exists c0, c1.
      split; [reflexivity|]. split; [exact Hms | exact H].
    - intros (-> & Hh & -> & c0 & c1 & -> & -> & H).
      destruct (Route_handler r); [exact H | contradiction]. }
  split; [exact Hiff|].
  intros c o H. apply Hiff in H.
  destruct H as (_ & _ & _ & c0 & c1 & _ & _ & H).
  apply (proj2 frame_all) in H.
  destruct H as (r1 & Hin & r' & h' & Hreach & _ & Hh & ->).
  exists r1, r', h'. auto.
Qed.

(** A route without a handler of its own returns no-match, subrouter or
    not. *)
Lemma Route_without_handler (r : Route) ctx out :
  Route_handler r = None ->
  Route_Match r ctx out = Returns (false, ctx, out).
Proof.
  intros Hh. rewrite Route_Match_eq, Hh. destruct (Route_err r); reflexivity.
Qed.

(** ** Builders of the router *)

Lemma alter_last {A} (f : A -> A) (l : list A) (x : A) :
  alter f (length l) (l ++ [x]) = l ++ [f x].
Proof. induction l as [|a l IH]; simpl; [reflexivity | f_equal; exact IH]. Qed.

Lemma lookup_last {A} (l : list A) (x : A) :
  (l ++ [x]) !! length l = Some x.
Proof. apply list_lookup_middle. reflexivity. Qed.

(** A builder of the router: [newRoute], then a method of the new route. *)
Lemma update_new_route (method : Route -> Route) (selftalk : bool)
    (s : SimpleRouter) :
  update_route (newRoute selftalk s).2 method (newRoute selftalk s).1
  = mkRouter (Router_routes s ++ [method (new_Route (Router_err s) selftalk)])
             (Router_botUserID s) (Router_err s) (Router_talkToSelf s).
Proof. unfold update_route, newRoute. simpl. rewrite alter_last. reflexivity. Qed.

Lemma call_new_route {A} (method : Route -> Route * A) (absent : A)
    (selftalk : bool) (s : SimpleRouter) :
  call_route (newRoute selftalk s).2 method absent (newRoute selftalk s).1
  = (mkRouter
       (Router_routes s ++ [(method (new_Route (Router_err s) selftalk)).1])
       (Router_botUserID s) (Router_err s) (Router_talkToSelf s),
     (method (new_Route (Router_err s) selftalk)).2).
Proof.
  unfold call_route, update_route, newRoute. simpl.
  rewrite lookup_last, alter_last. reflexivity.
Qed.

Lemma Router_Hear_eq regex s :
  Router_Hear regex s =
  (mkRouter (Router_routes s ++
               [Route_Hear regex (new_Route (Router_err s) (Router_talkToSelf s))])
            (Router_botUserID s) (Router_err s) (Router_talkToSelf s),
   length (Router_routes s)).
Proof.
  unfold Router_Hear.
  rewrite <- (update_new_route (Route_Hear regex)). reflexivity.
Qed.

Lemma Router_Messages_eq types s :
  Router_Messages types s =
  (mkRouter (Router_routes s ++
               [Route_Messages types
                  (new_Route (Router_err s) (Router_talkToSelf s))])
            (Router_botUserID s) (Router_err s) (Router_talkToSelf s),
   length (Router_routes s)).
Proof.
  unfold Router_Messages.
  rewrite <- (update_new_route (Route_Messages types)). reflexivity.
Qed.

Lemma Router_AddMatcher_eq m s :
  Router_AddMatcher m s =
  (mkRouter (Router_routes s ++
               [Route_AddMatcher m
                  (new_Route (Router_err s) (Router_talkToSelf s))])
            (Router_botUserID s) (Router_err s) (Router_talkToSelf s),
   length (Router_routes s)).
Proof.
  unfold Router_AddMatcher.
  rewrite <- (update_new_route (Route_AddMatcher m)). reflexivity.
Qed.

Lemma Router_Handler_eq h s :
  Router_Handler h s =
  (mkRouter (Router_routes s ++
               [(Route_Handler h
                   (new_Route (Router_err s) (Router_talkToSelf s))).1])
            (Router_botUserID s) (Router_err s) (Router_talkToSelf s),
   (Route_Handler h (new_Route (Router_err s) (Router_talkToSelf s))).2).
Proof.
  unfold Router_Handler.
  rewrite <- (call_new_route (Route_Handler h) None). reflexivity.
Qed.

Lemma Router_MessageHandler_eq fn s :
  Router_MessageHandler fn s =
  (mkRouter (Router_routes s ++
               [(Route_MessageHandler fn
                   (new_Route (Router_err s) (Router_talkToSelf s))).1])
            (Router_botUserID s) (Router_err s) (Router_talkToSelf s),
   (Route_MessageHandler fn
      (new_Route (Router_err s) (Router_talkToSelf s))).2).
Proof.
  unfold Router_MessageHandler.
  rewrite <- (call_new_route (Route_MessageHandler fn) None). reflexivity.
Qed.

(** The route builders leave the self-talk flag alone, the two setters
    apart. *)
Lemma Route_Hear_talkToSelf regex r :
  Route_talkToSelf (Route_Hear regex r) = Route_talkToSelf r.
Proof.
  unfold Route_Hear, Route_addRegexpMatcher.
  destruct (regexp_Compile regex); reflexivity.
Qed.

Lemma Route_Handler_talkToSelf h r :
  Route_talkToSelf (Route_Handler h r).1 = Route_talkToSelf r.
Proof. unfold Route_Handler. destruct (Route_err r); reflexivity. Qed.

(** C8: the default self-talk flag is a snapshot taken when a route is
    created. [AlwaysTalkToSelf] and [NeverTalkToSelf] write the flag of the
    router and nothing else: the routes registered so far are the same
    routes, each with the flag it had. A route that a builder of the
    router registers afterwards ([Hear], [Messages], [AddMatcher],
    [Handler], [MessageHandler]) takes the new flag, and the earlier
    routes are still as they were. *)
Theorem self_talk_default_is_a_snapshot (s : SimpleRouter) (flag : bool) :
  let s' := if flag then AlwaysTalkToSelf s else NeverTalkToSelf s in
  Router_routes s' = Router_routes s /\
  Router_talkToSelf s' = flag /\
  (forall regex, registers s (Router_Hear regex s').1 flag) /\
  (forall types, registers s (Router_Messages types s').1 flag) /\
  (forall m, registers s (Router_AddMatcher m s').1 flag) /\
  (forall h, registers s (Router_Handler h s').1 flag) /\
  (forall fn, registers s (Router_MessageHandler fn s').1 flag).
Proof.
  intros s'.
  assert (Hr : Router_routes s' = Router_routes s)
    by (subst s'; destruct flag; reflexivity).
  assert (Hf : Router_talkToSelf s' = flag)
    by (subst s'; destruct flag; reflexivity).
  repeat split; try assumption; intros x; unfold registers.
  - rewrite Router_Hear_eq. simpl. rewrite Hr, Hf. eexists. split; [reflexivity|].
    apply Route_Hear_talkToSelf.
  - rewrite Router_Messages_eq. simpl. rewrite Hr, Hf. eexists.
    split; reflexivity.
  - rewrite Router_AddMatcher_eq. simpl. rewrite Hr, Hf. eexists.
    split; reflexivity.
  - rewrite Router_Handler_eq. simpl. rewrite Hr, Hf. eexists.
    split; [reflexivity|]. apply Route_Handler_talkToSelf.
  - rewrite Router_MessageHandler_eq. simpl. rewrite Hr, Hf. eexists.
    split; [reflexivity|]. apply Route_Handler_talkToSelf.
Qed.

(** ** The sticky build error *)

Lemma Route_Hear_err regex r :
  Route_err (Route_Hear regex r) =
  match regexp_Compile regex with
  | inl _ => Route_err r
  | inr msg => Some msg
  end.
Proof.
  unfold Route_Hear, Route_addRegexpMatcher.
  destruct (regexp_Compile regex); reflexivity.
Qed.

Lemma Route_Hear_matchers regex r :
  Route_matchers (Route_Hear regex r) =
  Route_matchers r ++
    [RegexpMatcher match regexp_Compile regex with
                   | inl re => Some re
                   | inr _ => None
                   end ""].
Proof.
  unfold Route_Hear, Route_addRegexpMatcher.
  destruct (regexp_Compile regex); reflexivity.
Qed.

Lemma Route_Handler_errored h r e :
  Route_err r = Some e -> Route_Handler h r = (r, Some e).
Proof. intros He. unfold Route_Handler. rewrite He. reflexivity. Qed.

Lemma Route_Hear_err_stays regex r :
  Route_err r <> None -> Route_err (Route_Hear regex r) <> None.
Proof.
  intros He. rewrite Route_Hear_err.
  destruct (regexp_Compile regex); [exact He | discriminate].
Qed.

(** A router builder called on a router with a build error: the goal is
    that of [registers_errored], the error is among the hypotheses. *)
Local Ltac errored_new_route :=
  match goal with
  | He : Router_err ?s = Some ?e |- _ =>
      rewrite ?Router_Hear_eq, ?Router_Messages_eq, ?Router_AddMatcher_eq,
        ?Router_Handler_eq, ?Router_MessageHandler_eq;
      simpl; (split; [exact He|]); eexists; (split; [reflexivity|]);
      try apply Route_Hear_err_stays;
      unfold Route_MessageHandler;
      rewrite ?(Route_Handler_errored _ _ e) by (simpl; exact He);
      simpl; rewrite He; discriminate
  end.

(** C2, as the code has it. On a route with a build error, [Handler] and
    [MessageHandler] change nothing and return that error. The other
    builders of a route are not guarded: they apply their update, and
    leave the error as it is ([Subrouter] hands it to the router it
    creates). The updates are stated in the last part: on a route with a
    build error [TalkToSelf] and [NoTalkToSelf] set the flag, [AddMatcher]
    and [Messages] append their matcher, [Preprocess] installs the
    function, [Hear] with a pattern that compiles appends the pattern
    matcher, and [Subrouter] attaches a new router with the error. [Hear]
    with a pattern that fails to compile sets the build
    error of the route to the compile error, and with a pattern that
    compiles leaves the error as it is. On a router with a build error a
    builder still registers a new route; the router keeps its error, the
    new route carries a build error, and [Handler] and [MessageHandler]
    return the error of the router. *)
Theorem build_error_is_sticky :
  (forall r e h, Route_err r = Some e -> Route_Handler h r = (r, Some e)) /\
  (forall r e fn,
     Route_err r = Some e -> Route_MessageHandler fn r = (r, Some e)) /\
  (keeps_error Route_TalkToSelf /\ keeps_error Route_NoTalkToSelf /\
   (forall m, keeps_error (Route_AddMatcher m)) /\
   (forall types, keeps_error (Route_Messages types)) /\
   (forall fn, keeps_error (Route_Preprocess fn)) /\
   keeps_error Route_Subrouter) /\
  (forall r, exists sub,
     Route_subrouter (Route_Subrouter r) = Some sub /\
     Router_err sub = Route_err r) /\
  (forall regex r,
     Route_err (Route_Hear regex r) =
     match regexp_Compile regex with
     | inl _ => Route_err r
     | inr msg => Some msg
     end) /\
  ((forall regex, registers_errored (fun s => (Router_Hear regex s).1)) /\
   (forall types, registers_errored (fun s => (Router_Messages types s).1)) /\
   (forall m, registers_errored (fun s => (Router_AddMatcher m s).1)) /\
   (forall h, registers_errored (fun s => (Router_Handler h s).1)) /\
   (forall fn, registers_errored (fun s => (Router_MessageHandler fn s).1)) /\
   registers_errored (fun s => (Router_TalkToSelf s).1) /\
   registers_errored (fun s => (Router_NoTalkToSelf s).1)) /\
  (forall s e h, Router_err s = Some e -> (Router_Handler h s).2 = Some e) /\
  (forall s e fn,
     Router_err s = Some e -> (Router_MessageHandler fn s).2 = Some e) /\
  (forall r e,
     Route_err r = Some e ->
     Route_talkToSelf (Route_TalkToSelf r) = true /\
     Route_talkToSelf (Route_NoTalkToSelf r) = false /\
     (forall m,
        Route_matchers (Route_AddMatcher m r) = Route_matchers r ++ [m]) /\
     (forall types,
        Route_matchers (Route_Messages types r)
        = Route_matchers r ++ [TypesMatcher types (Route_botUserID r)]) /\
     (forall fn, Route_preprocessor (Route_Preprocess fn r) = fn) /\
     (forall regex re,
        regexp_Compile regex = inl re ->
        Route_matchers (Route_Hear regex r)
        = Route_matchers r ++ [RegexpMatcher (Some re) ""]) /\
     Route_subrouter (Route_Subrouter r)
     = Some (mkRouter [] "" (Some e) false)).
Proof.
  split; [exact (fun r e h => Route_Handler_errored h r e)|].
  split; [intros r e fn; apply Route_Handler_errored|].
  split; [repeat split; intros; intros r e He; exact He|].
  split; [intros r; eexists; split; reflexivity|].
  split; [exact Route_Hear_err|].
  split.
  - repeat match goal with |- _ /\ _ => split end;
      unfold registers_errored; intros; errored_new_route.
  - split; [|split].
    + intros s e x He. rewrite Router_Handler_eq. simpl.
      rewrite (Route_Handler_errored _ _ e) by (simpl; exact He). reflexivity.
    + intros s e x He.
      rewrite Router_MessageHandler_eq. simpl. unfold Route_MessageHandler.
      rewrite (Route_Handler_errored _ _ e) by (simpl; exact He). reflexivity.
    + intros r e He.
      split; [reflexivity|]. split; [reflexivity|].
      split; [reflexivity|]. split; [reflexivity|].
      split; [reflexivity|]. split.
      * intros regex re Hc. rewrite Route_Hear_matchers, Hc. reflexivity.
      * simpl. rewrite He. reflexivity.
Qed.

(** ** Propagation of the bot identity *)

(** What [SetBotID] does reach: the router, each of its routes, and each
    matcher of those routes. *)
Lemma Router_SetBotID_reaches (botID : string) (s : SimpleRouter) :
  Router_botUserID (Router_SetBotID botID s) = botID /\
  Forall (fun r => Route_botUserID r = botID /\
                   Forall (fun m => Matcher_botUserID m = botID)
                          (Route_matchers r))
         (Router_routes (Router_SetBotID botID s)).
Proof.
  split; [reflexivity|]. simpl.
  apply List.Forall_forall. intros r' Hin.
  apply List.in_map_iff in Hin. destruct Hin as (r & <- & _).
  split; [reflexivity|]. simpl.
  apply List.Forall_forall. intros m' Hm.
  apply List.in_map_iff in Hm. destruct Hm as (m & <- & _).
  destruct m; reflexivity.
Qed.

(** What it does not reach: [Route.setBotID] leaves the subrouter of the
    route as it is. *)
Lemma Route_setBotID_subrouter (botID : string) (r : Route) :
  Route_subrouter (Route_setBotID botID r) = Route_subrouter r.
Proof. reflexivity. Qed.

(** ** Context accessors *)

(** C9: round trip of the context accessors. A bot reference stored with
    [AddBotToContext] is what [BotFromContext] returns, and a message
    event reference stored with [AddMessageToContext] is what
    [MessageFromContext] returns, nil references included, on every
    context. On a context no layer of which binds the key, the accessor
    returns nil; both accessors are total, they read through no pointer. *)
Theorem context_accessors_round_trip :
  (forall ctx bot, BotFromContext (AddBotToContext ctx bot) = bot) /\
  (forall ctx msg, MessageFromContext (AddMessageToContext ctx msg) = msg) /\
  (forall ctx, binds ctx (PkgKey bot_context_key) = false ->
               BotFromContext ctx = None) /\
  (forall ctx, binds ctx (PkgKey message_context_key) = false ->
               MessageFromContext ctx = None).
Proof.
  assert (Hv : forall ctx k, binds ctx k = false -> Value ctx k = None).
  { induction ctx as [|parent IH k' v]; intros k; simpl; [reflexivity|].
    intros H. apply orb_false_iff in H. destruct H as [Hk Hp].
    apply bool_decide_eq_false in Hk.
    destruct (decide (k = k')); [contradiction | auto]. }
  repeat split.
  - intros ctx H. unfold BotFromContext. rewrite (Hv _ _ H). reflexivity.
  - intros ctx H. unfold MessageFromContext. rewrite (Hv _ _ H). reflexivity.
Qed.

End Properties.

(** * Examples: the statements at concrete routers *)

Section Examples.

Local Existing Instance Sample.externals.

Import Sample.

Lemma build_error_fails_closed_witness :
  Route_Match broken (ctx_of ping) out0 = Returns (false, ctx_of ping, out0) /\
  Router_Match (mkRouter [catch_all] "" (Some "inherited") false)
               (ctx_of ping) out0
    = Returns (false, ctx_of ping, out0).
Proof.
  split.
  - apply (proj2 build_error_fails_closed). discriminate.
  - apply (proj1 build_error_fails_closed). discriminate.
Defined.

Lemma Router_no_match_returns_input_context_witness :
  Route_Match refuser (ctx_of ping) out0
    = Returns (false, WithValue (ctx_of ping) (ForeignKey 7) (AnyOther 1),
               out0) /\
  Router_Match refusing (ctx_of ping) out0
    = Returns (false, ctx_of ping, out0).
Proof.
  split; [reflexivity|].
  apply (Router_no_match_returns_input_context refusing (ctx_of ping) out0).
  repeat constructor.
  exists (WithValue (ctx_of ping) (ForeignKey 7) (AnyOther 1)), out0.
  reflexivity.
Defined.

Lemma output_written_only_on_match_witness :
  (exists r' h,
     Route_reaches gate_with_handler r' /\ Route_subrouter r' = None /\
     Route_handler r' = Some h /\ hB = Some h) /\
  (exists c o,
     Router_Match refusing (ctx_of ping) (mkRouteMatch (Some catch_all) hB)
       = Returns (false, c, o) /\
     Match_Route o = Some catch_all /\ Match_Handler o = hB).
Proof.
  split.
  - destruct (proj1 output_written_only_on_match gate_with_handler
                (ctx_of ping) out0 true (ctx_of ping)
                (mkRouteMatch (Some (Route_Handler hB (new_Route None false)).1) hB)
                eq_refl)
      as (r' & h & Hreach & Hsub & Hh & _ & Ho).
    exists r', h. auto.
  - exists (ctx_of ping), (mkRouteMatch (Some catch_all) hB).
    split; [reflexivity|].
    exact (proj2 output_written_only_on_match refusing (ctx_of ping)
             (mkRouteMatch (Some catch_all) hB) false (ctx_of ping)
             (mkRouteMatch (Some catch_all) hB) eq_refl).
Defined.

Lemma first_match_wins_witness :
  two_routes = mkRouter ([] ++ hear_ping :: [] ++ catch_all :: []) "" None false /\
  (exists o1,
     Router_Match two_routes (ctx_of ping) out0
       = Returns (true, ctx_of ping, o1) /\
     Match_Route o1 = Some hear_ping /\ Match_Handler o1 = hA) /\
  gated = mkRouter ([] ++ gate_hC :: [] ++ catch_all :: []) "" None false /\
  (exists o1 r' h',
     Router_Match gated (ctx_of ping) out0
       = Returns (true, ctx_of ping, o1) /\
     Route_handler r' = Some h' /\
     Match_Route o1 = Some r' /\ Match_Handler o1 = Some h').
Proof.
  assert (H2 : matched (Route_Match catch_all (ctx_of ping) out0))
    by (exists (ctx_of ping), (mkRouteMatch (Some catch_all) hB);
        reflexivity).
  split; [reflexivity|]. split; [|split; [reflexivity|]].
  - exists (mkRouteMatch (Some hear_ping) hA).
    assert (H1 : Route_Match hear_ping (ctx_of ping) out0
                 = Returns (true, ctx_of ping,
                            mkRouteMatch (Some hear_ping) hA))
      by reflexivity.
    destruct (first_match_wins [] [] [] hear_ping catch_all "" false
                (ctx_of ping) out0 (ctx_of ping)
                (mkRouteMatch (Some hear_ping) hA)
                (@List.Forall_nil Route _) H1 H2)
      as (Hfirst & _ & Hfill & _).
    split; [exact Hfirst | exact (Hfill eq_refl)].
  - assert (H1 : Route_Match gate_hC (ctx_of ping) out0
                 = Returns (true, ctx_of ping,
                            mkRouteMatch
                              (Some (Route_Handler hC (new_Route None false)).1)
                              hC))
      by reflexivity.
    destruct (first_match_wins [] [] [] gate_hC catch_all "" false
                (ctx_of ping) out0 (ctx_of ping)
                (mkRouteMatch
                   (Some (Route_Handler hC (new_Route None false)).1) hC)
                (@List.Forall_nil Route _) H1 H2)
      as (Hfirst & _ & _ & Hsub).
    destruct (Hsub _ eq_refl)
      as (c' & inner & r' & h' & _ & _ & _ & _ & Hh & Hr & Ho).
    exists (mkRouteMatch (Some (Route_Handler hC (new_Route None false)).1)
                         hC), r', h'.
    split; [exact Hfirst|]. split; [exact Hh|]. split; [exact Hr | exact Ho].
Defined.

Lemma self_talk_filter_comes_first_witness :
  Route_Match guarded (ctx_of own_ping) out0
    = Returns (false, ctx_of own_ping, out0) /\
  Route_Match (Route_Preprocess (Some (fun _ => Panics)) guarded)
              (ctx_of own_ping) out0
    = Returns (false, ctx_of own_ping, out0) /\
  Route_Match (Route_TalkToSelf guarded) (ctx_of own_ping) out0
    = Returns (true, ctx_of own_ping,
               mkRouteMatch (Some (Route_TalkToSelf guarded)) hB).
Proof.
  destruct (self_talk_filter_comes_first guarded (ctx_of own_ping) out0
              (mkMessageRef 1 own_ping) eq_refl eq_refl eq_refl)
    as (Hno & Hany & Hyes).
  split; [exact Hno|]. split.
  - exact (Hany (Some (fun _ => Panics)) (Route_matchers guarded)).
  - exact (Hyes (UserHandler 2) (ctx_of own_ping) (ctx_of own_ping)
             eq_refl eq_refl eq_refl eq_refl).
Defined.

Lemma subrouter_delegation_witness :
  Route_Match gate_with_handler (ctx_of ping) out0
    = Returns (true, ctx_of ping,
               mkRouteMatch (Some (Route_Handler hB (new_Route None false)).1)
                            hB) /\
  Route_handler gate_with_handler = hA.
Proof.
  split; [|reflexivity].
  apply (proj1 (subrouter_delegation gate_with_handler inner (ctx_of ping)
                  out0 eq_refl)).
  split; [reflexivity|]. split; [discriminate|]. split; [reflexivity|].
  exists (ctx_of ping), (ctx_of ping).
  split; [reflexivity|]. split; reflexivity.
Defined.

Lemma build_error_is_sticky_witness :
  Route_err broken <> None /\
  Route_Handler hA broken
    = (broken, Some "error parsing regexp: missing closing ): `(`") /\
  Route_matchers (Route_AddMatcher always broken)
    = [RegexpMatcher None ""; always] /\
  Route_talkToSelf (Route_TalkToSelf broken) = true.
Proof.
  destruct (@build_error_is_sticky externals)
    as (Hhandler & _ & _ & _ & _ & _ & _ & _ & Hupdate).
  destruct (Hupdate broken "error parsing regexp: missing closing ): `(`"
              eq_refl) as (Htalk & _ & Hadd & _).
  split; [discriminate|].
  split; [apply Hhandler; reflexivity|].
  split; [exact (Hadd always) | exact Htalk].
Defined.

Lemma context_accessors_round_trip_witness :
  MessageFromContext (AddBotToContext Background (Some 0%nat)) = None /\
  BotFromContext (AddMessageToContext Background None) = None.
Proof.
  split.
  - apply (proj2 (proj2 (proj2 context_accessors_round_trip))). reflexivity.
  - apply (proj1 (proj2 (proj2 context_accessors_round_trip))). reflexivity.
Defined.

(** ** Where the code departs from the statements *)

(** C1 as stated fails on the code. [gate] has a matcher that passes and a
    subrouter that matches, and does not match, for want of a handler of
    its own; [gate_with_handler] has the handler and the same matcher and
    subrouter, and does not match an event of the bot itself, which its
    self-talk filter stops before the matchers. *)
Lemma subrouter_alone_does_not_decide :
  (Route_matchers gate <> [] /\
   Route_subrouter gate = Some inner /\
   matchers_loop (Route_matchers gate) (ctx_of ping)
     = Returns (true, ctx_of ping) /\
   matched (Router_Match inner (ctx_of ping) out0) /\
   ~ matched (Route_Match gate (ctx_of ping) out0)) /\
  (Route_matchers gate_with_handler <> [] /\
   Route_subrouter gate_with_handler = Some inner /\
   matchers_loop (Route_matchers gate_with_handler) (ctx_of own_ping)
     = Returns (true, ctx_of own_ping) /\
   matched (Router_Match inner (ctx_of own_ping) out0) /\
   ~ matched (Route_Match gate_with_handler (ctx_of own_ping) out0)).
Proof.
  split.
  - split; [discriminate|]. split; [reflexivity|]. split; [reflexivity|].
    split; [eexists; eexists; reflexivity|].
    intros (c & o & H). discriminate H.
  - split; [discriminate|]. split; [reflexivity|]. split; [reflexivity|].
    split; [eexists; eexists; reflexivity|].
    intros (c & o & H). discriminate H.
Qed.

(** C2 as stated fails on the code. [Hear] with a pattern that does not
    compile sets the build error and appends a pattern matcher all the
    same (one that holds no expression); and on the route that now carries
    the error, [AddMatcher], [TalkToSelf] and [Subrouter] still do their
    update, and a second failing [Hear] appends again. On a router with a
    build error, [Handler] returns the error and still registers a
    route. *)
Lemma builders_run_despite_build_error :
  Route_matchers (new_Route None false) = [] /\
  Route_err broken = Some "error parsing regexp: missing closing ): `(`" /\
  Route_matchers broken = [RegexpMatcher None ""] /\
  length (Route_matchers (Route_AddMatcher always broken)) = 2 /\
  length (Route_matchers (Route_Hear "(" broken)) = 2 /\
  Route_talkToSelf (Route_TalkToSelf broken) = true /\
  Route_talkToSelf broken = false /\
  Route_subrouter broken = None /\
  Route_subrouter (Route_Subrouter broken) <> None /\
  (Router_Handler hA (mkRouter [] "" (Some "inherited") false)).2
    = Some "inherited" /\
  length (Router_routes
            (Router_Handler hA (mkRouter [] "" (Some "inherited") false)).1)
    = 1.
Proof. repeat split; discriminate. Qed.

(** C5 as stated fails on the code when the earlier route has a
    subrouter. [gated] holds [gate_hC], which has the handler [hA] and a
    subrouter whose route has the handler [hC], and after it [catch_all];
    each of the two matches the event on its own. [SimpleRouter.Match]
    stops at [gate_hC], and the handler in the output record is [hC], the
    handler of the route of the subrouter, not the handler of
    [gate_hC]. *)
Lemma first_match_may_delegate :
  Router_routes gated = [gate_hC; catch_all] /\
  Router_err gated = None /\
  matched (Route_Match gate_hC (ctx_of ping) out0) /\
  matched (Route_Match catch_all (ctx_of ping) out0) /\
  Route_handler gate_hC = hA /\
  exists o,
    Router_Match gated (ctx_of ping) out0 = Returns (true, ctx_of ping, o) /\
    Match_Route o = Some (Route_Handler hC (new_Route None false)).1 /\
    Match_Handler o = hC /\
    Match_Handler o <> Route_handler gate_hC.
Proof.
  split; [reflexivity|]. split; [reflexivity|].
  split; [eexists; eexists; reflexivity|].
  split; [eexists; eexists; reflexivity|].
  split; [reflexivity|].
  eexists. split; [reflexivity|]. split; [reflexivity|].
  split; [reflexivity | discriminate].
Qed.

(** C3 on the code: [SetBotID] reaches the router, its routes and their
    matchers, and stops there. On [nested], built through the builders,
    the subrouter of the route, the route of that subrouter and its
    matcher still have the empty identity after [SetBotID("UBOT")]; a
    direct mention of the bot passes the outer route and is refused by
    the route of the subrouter, whose matcher looks for a mention of the
    empty identity. *)
Theorem SetBotID_stops_at_subrouters :
  (forall botID s,
     Router_botUserID (Router_SetBotID botID s) = botID /\
     Forall (fun r => Route_botUserID r = botID /\
                      Forall (fun m => Matcher_botUserID m = botID)
                             (Route_matchers r))
            (Router_routes (Router_SetBotID botID s))) /\
  (forall botID r,
     Route_subrouter (Route_setBotID botID r) = Route_subrouter r) /\
  (exists route sub inner_route,
     Router_routes (Router_SetBotID "UBOT" nested) = [route] /\
     Route_botUserID route = "UBOT" /\
     Route_matchers route = [TypesMatcher [DirectMention] "UBOT"] /\
     Route_subrouter route = Some sub /\
     Router_botUserID sub = "" /\
     Router_routes sub = [inner_route] /\
     Route_botUserID inner_route = "" /\
     Route_matchers inner_route = [TypesMatcher [DirectMention] ""]) /\
  Router_Match (Router_SetBotID "UBOT" nested) (ctx_of mention) out0
    = Returns (false, ctx_of mention, out0).
Proof.
  split; [exact Router_SetBotID_reaches|].
  split; [reflexivity|].
  split; [|reflexivity].
  do 3 eexists. repeat split.
Qed.

End Examples.

(** * Further properties of the matchers, the builders and the dispatcher *)

Section Further.

Context {ext : Externals}.

(** ** The matcher loop *)

(** X1: the matchers of a route are a conjunction, evaluated in order and
    cut short. Running the matchers [ms1 ++ ms2] is running [ms1] and, if
    they all pass, running [ms2] on the context [ms1] produced; if a
    matcher of [ms1] refuses or panics, that is the result and [ms2] is
    not run. *)
Theorem matchers_loop_app (ms1 ms2 : list Matcher) (ctx : Context) :
  matchers_loop (ms1 ++ ms2) ctx =
  match matchers_loop ms1 ctx with
  | Returns (true, c) => matchers_loop ms2 c
  | other => other
  end.
Proof.
  revert ctx. induction ms1 as [|m ms1 IH]; intros ctx; simpl; [reflexivity|].
  destruct (Matcher_Match m ctx) as [[[] c]|]; simpl; [apply IH | reflexivity..].
Qed.

(** ** The type matcher *)

Lemma TypesMatcher_loop_or (msg : MessagePtr) (botUserID : string)
    (types : list MessageType) (dm mention : bool) :
  IsDirectMessage msg = Returns dm ->
  IsDirectMention msg botUserID = Returns mention ->
  TypesMatcher_loop msg botUserID types =
  Returns (existsb (fun t => t =? DirectMessage)%Z types && dm
           || existsb (fun t => t =? DirectMention)%Z types && mention).
Proof.
  intros Hdm Hme. induction types as [|t types IH];
    cbn [TypesMatcher_loop existsb]; [reflexivity|].
  destruct (Z.eqb_spec t DirectMessage) as [->|Hn1].
  - rewrite Hdm. cbn [mbind outcome_bind]. destruct dm; [reflexivity|].
    rewrite IH, !andb_false_r. reflexivity.
  - destruct (Z.eqb_spec t DirectMention) as [->|Hn2].
    + rewrite Hme. cbn [mbind outcome_bind]. destruct mention.
      * rewrite andb_true_r, orb_true_r. reflexivity.
      * rewrite IH, !andb_false_r. reflexivity.
    + exact IH.
Qed.

(** X2: the type matcher is a disjunction over the requested types. When
    the two helpers return on the event of the context, the matcher
    matches exactly when [DirectMessage] is requested and the event is a
    direct message, or [DirectMention] is requested and the event is a
    direct mention of the identity of the matcher; values of
    [MessageType] other than the two constants count for nothing, no
    requested type gives no-match, and the context is returned as it
    came. *)
Theorem TypesMatcher_is_disjunction (types : list MessageType)
    (botUserID : string) (ctx : Context) (dm mention : bool) :
  IsDirectMessage (MessageFromContext ctx) = Returns dm ->
  IsDirectMention (MessageFromContext ctx) botUserID = Returns mention ->
  Matcher_Match (TypesMatcher types botUserID) ctx =
  Returns (existsb (fun t => t =? DirectMessage)%Z types && dm
           || existsb (fun t => t =? DirectMention)%Z types && mention, ctx).
Proof.
  intros Hdm Hme. simpl. unfold TypesMatcher_Match.
  rewrite (TypesMatcher_loop_or _ _ _ _ _ Hdm Hme). reflexivity.
Qed.

(** ** Routes of package matchers keep the context *)

Lemma package_matcher_keeps_context (m : Matcher) ctx b c :
  package_matcher m = true ->
  Matcher_Match m ctx = Returns (b, c) -> c = ctx.
Proof.
  destruct m as [re id|ts id|id f]; simpl; [| |discriminate]; intros _.
  - unfold RegexpMatcher_Match.
    destruct (MessageFromContext ctx); [|discriminate].
    destruct re; [|discriminate]. intros [= _ <-]. reflexivity.
  - unfold TypesMatcher_Match.
    destruct (TypesMatcher_loop _ _ _); simpl; [|discriminate].
    intros [= _ <-]. reflexivity.
Qed.

Lemma package_matchers_keep_context (ms : list Matcher) ctx b c :
  forallb package_matcher ms = true ->
  matchers_loop ms ctx = Returns (b, c) -> c = ctx.
Proof.
  revert ctx. induction ms as [|m ms IH]; intros ctx; simpl.
  - intros _ [= _ <-]. reflexivity.
  - intros Hall. apply andb_true_iff in Hall. destruct Hall as [Hm Hms].
    destruct (Matcher_Match m ctx) as [[b1 c1]|] eqn:E; simpl; [|discriminate].
    apply (package_matcher_keeps_context _ _ _ _ Hm) in E. subst c1.
    destruct b1; [apply IH, Hms|]. intros [= _ <-]. reflexivity.
Qed.

Lemma Route_plain_eq (r : Route) :
  Route_plain r =
  match Route_preprocessor r with None => true | Some _ => false end &&
  forallb package_matcher (Route_matchers r) &&
  match Route_subrouter r with
  | None => true
  | Some sub => Router_plain sub
  end.
Proof. destruct r; reflexivity. Qed.

Lemma Router_plain_eq (s : SimpleRouter) :
  Router_plain s = forallb Route_plain (Router_routes s).
Proof. destruct s; reflexivity. Qed.

Lemma routes_loop_keeps (rs : list Route) :
  Forall Route_keeps rs ->
  forallb Route_plain rs = true ->
  forall ctx out b c o,
    routes_loop Route_Match rs ctx out = Returns (b, c, o) -> c = ctx.
Proof.
  induction 1 as [|r rs Hr _ IH]; simpl; intros Hall ctx out b c o.
  - intros [= _ <- _]. reflexivity.
  - apply andb_true_iff in Hall. destruct Hall as [Hp Hps].
    destruct (Route_Match r ctx out) as [[[[] c1] o1]|] eqn:E; [| |discriminate].
    + intros [= _ <- _]. exact (Hr Hp _ _ _ _ _ E).
    + apply IH, Hps.
Qed.

Lemma plain_keeps_all :
  (forall r, Route_keeps r) /\ (forall s, Router_keeps s).
Proof.
  assert (HR : forall r,
             (forall sub, Route_subrouter r = Some sub -> Router_keeps sub) ->
             Route_keeps r).
  { intros r IH Hp ctx out b c o. rewrite Route_plain_eq in Hp.
    apply andb_true_iff in Hp. destruct Hp as [Hp Hsub].
    apply andb_true_iff in Hp. destruct Hp as [Hpre Hms].
    rewrite Route_Match_eq.
    destruct (Route_err r); [intros [= _ <- _]; reflexivity|].
    destruct (Route_handler r); [|intros [= _ <- _]; reflexivity].
    destruct (selfTalkBlocked _ _ _); [intros [= _ <- _]; reflexivity|].
    destruct (Route_preprocessor r); [discriminate|]. simpl.
    destruct (matchers_loop _ _) as [[b2 c2]|] eqn:E; [|discriminate].
    apply (package_matchers_keep_context _ _ _ _ Hms) in E. subst c2.
    destruct b2; [|intros [= _ <- _]; reflexivity].
    destruct (Route_subrouter r) as [sub|].
    - apply (IH sub eq_refl Hsub).
    - intros [= _ <- _]. reflexivity. }
  assert (HS : forall s, Forall Route_keeps (Router_routes s) ->
                         Router_keeps s).
  { intros s Hall Hp ctx out b c o. rewrite Router_plain_eq in Hp.
    rewrite Router_Match_eq.
    destruct (Router_err s); [intros [= _ <- _]; reflexivity|].
    apply routes_loop_keeps; assumption. }
  split.
  - exact (Route_tree_ind Route_keeps Router_keeps HR HS).
  - exact (Router_tree_ind Route_keeps Router_keeps HR HS).
Qed.

(** X3: the matchers of the package never change the context. A route
    without preprocessor whose matchers are pattern and type matchers,
    with subrouters of such routes, and a router of such routes, return
    the context they were given, match or no match. *)
Theorem plain_routes_keep_context :
  (forall (r : Route) ctx out b c o,
     Route_plain r = true ->
     Route_Match r ctx out = Returns (b, c, o) -> c = ctx) /\
  (forall (s : SimpleRouter) ctx out b c o,
     Router_plain s = true ->
     Router_Match s ctx out = Returns (b, c, o) -> c = ctx).
Proof.
  split.
  - intros r ctx out b c o Hp H. exact (proj1 plain_keeps_all r Hp _ _ _ _ _ H).
  - intros s ctx out b c o Hp H. exact (proj2 plain_keeps_all s Hp _ _ _ _ _ H).
Qed.

(** ** The router loop over lists of routes *)

Lemma routes_loop_app (l1 l2 : list Route) ctx out :
  routes_loop Route_Match (l1 ++ l2) ctx out =
  match routes_loop Route_Match l1 ctx out with
  | Returns (false, _, _) => routes_loop Route_Match l2 ctx out
  | res => res
  end.
Proof.
  induction l1 as [|r l1 IH]; simpl; [reflexivity|].
  destruct (Route_Match r ctx out) as [[[[] c1] o1]|] eqn:E; try reflexivity.
  rewrite (Route_no_match_frame _ _ _ _ _ E). exact IH.
Qed.

(** X4: matching against routes registered in two batches. The router
    with the routes [l1 ++ l2] returns what the router with the routes
    [l1] returns when that is a match or a panic, and otherwise what the
    router with the routes [l2] returns on the same context and output
    record: registering more routes never changes the outcome for an
    event that an earlier route matches. *)
Theorem Router_Match_app (l1 l2 : list Route) (botUserID : string)
    (err : error) (talkToSelf : bool) ctx out :
  Router_Match (mkRouter (l1 ++ l2) botUserID err talkToSelf) ctx out =
  match Router_Match (mkRouter l1 botUserID err talkToSelf) ctx out with
  | Returns (false, _, _) =>
      Router_Match (mkRouter l2 botUserID err talkToSelf) ctx out
  | res => res
  end.
Proof.
  simpl. destruct err; [reflexivity|]. apply routes_loop_app.
Qed.

Lemma Route_not_live (r : Route) ctx out :
  Route_live r = false -> Route_Match r ctx out = Returns (false, ctx, out).
Proof.
  unfold Route_live. rewrite Route_Match_eq.
  destruct (Route_err r); [reflexivity|].
  destruct (Route_handler r); [discriminate | reflexivity].
Qed.

(** X5: a route that carries a build error or has no handler is
    transparent in its router. Removing all such routes from the list
    changes no result of [SimpleRouter.Match]: the other routes are
    consulted in the same order, with the same context and output
    record. *)
Theorem dead_routes_are_transparent (routes : list Route)
    (botUserID : string) (err : error) (talkToSelf : bool) ctx out :
  Router_Match (mkRouter routes botUserID err talkToSelf) ctx out =
  Router_Match (mkRouter (List.filter Route_live routes)
                         botUserID err talkToSelf) ctx out.
Proof.
  simpl. destruct err; [reflexivity|].
  induction routes as [|r routes IH]; simpl; [reflexivity|].
  destruct (Route_live r) eqn:Hl; simpl.
  - destruct (Route_Match r ctx out) as [[[[] c1] o1]|] eqn:E; try reflexivity.
    rewrite (Route_no_match_frame _ _ _ _ _ E). exact IH.
  - rewrite (Route_not_live _ _ _ Hl). exact IH.
Qed.

(** ** The output record is output only *)

Lemma routes_loop_with_output (rs : list Route) :
  Forall (fun r => forall ctx out out',
            Route_Match r ctx out' = with_output out' (Route_Match r ctx out))
         rs ->
  forall ctx out out',
    routes_loop Route_Match rs ctx out' =
    with_output out' (routes_loop Route_Match rs ctx out).
Proof.
  induction 1 as [|r rs Hr _ IH]; intros ctx out out'; simpl; [reflexivity|].
  rewrite (Hr ctx out out').
  destruct (Route_Match r ctx out) as [[[[] c1] o1]|]; simpl; try reflexivity.
  apply IH.
Qed.

(** X6: what [Match] returns does not depend on what the output record
    held. Called with another record, [Route.Match] and
    [SimpleRouter.Match] return the same verdict and the same context; on
    a match the record they return is the same, and on no-match it is the
    record they were given (so a record that is used again keeps the
    route and handler of the last match). *)
Theorem Match_reads_no_output :
  (forall (r : Route) ctx out out',
     Route_Match r ctx out' = with_output out' (Route_Match r ctx out)) /\
  (forall (s : SimpleRouter) ctx out out',
     Router_Match s ctx out' = with_output out' (Router_Match s ctx out)).
Proof.
  set (P := fun r => forall ctx out out',
              Route_Match r ctx out' = with_output out' (Route_Match r ctx out)).
  set (Q := fun s => forall ctx out out',
              Router_Match s ctx out' = with_output out' (Router_Match s ctx out)).
  assert (HR : forall r,
             (forall sub, Route_subrouter r = Some sub -> Q sub) -> P r).
  { intros r IH ctx out out'. rewrite !Route_Match_eq.
    destruct (Route_err r); [reflexivity|].
    destruct (Route_handler r); [|reflexivity].
    destruct (selfTalkBlocked _ _ _); [reflexivity|].
    destruct (apply_preprocessor _ _); [|reflexivity].
    destruct (matchers_loop _ _) as [[[] c2]|]; [|reflexivity..].
    destruct (Route_subrouter r) as [sub|]; [|reflexivity].
    apply (IH sub eq_refl). }
  assert (HS : forall s, Forall P (Router_routes s) -> Q s).
  { intros s Hall ctx out out'. rewrite !Router_Match_eq.
    destruct (Router_err s); [reflexivity|].
    apply routes_loop_with_output, Hall. }
  split.
  - exact (Route_tree_ind P Q HR HS).
  - exact (Router_tree_ind P Q HR HS).
Qed.

(** ** The route of [Hear(regex).Handler(h)] *)

(** X7: the route that [Hear(regex)] and [Handler(h)] build, once
    [SetBotID(botID)] reached it, on a context that holds a message
    event, when the pattern compiles. It returns no-match if self-talk is
    disabled and the author of the event is [botID]; otherwise it matches
    exactly when the compiled expression matches the text of the event
    with the direct mention stripped, and then the output record holds
    this route and [h]. The context is returned as it came. *)
Theorem Hear_route_matches_stripped_text (regex : string) (re : Regexp)
    (h : HandlerFn) (selftalk : bool) (botID : string) ctx out ev :
  regexp_Compile regex = inl re ->
  MessageFromContext ctx = Some ev ->
  let r := Route_setBotID botID
             (Route_Handler (Some h)
                (Route_Hear regex (new_Route None selftalk))).1 in
  Route_Match r ctx out =
  if negb selftalk && bool_decide (botID = User (msg_event ev))
  then Returns (false, ctx, out)
  else if MatchString re (StripDirectMention (Text (msg_event ev)))
       then Returns (true, ctx, mkRouteMatch (Some r) (Some h))
       else Returns (false, ctx, out).
Proof.
  intros Hc Hev r. subst r.
  unfold Route_Hear, Route_addRegexpMatcher. rewrite Hc.
  cbn -[selfTalkBlocked MessageFromContext].
  unfold selfTalkBlocked. rewrite Hev.
  destruct (negb selftalk && bool_decide (botID = User (msg_event ev)));
    [reflexivity|].
  cbn -[MessageFromContext]. unfold RegexpMatcher_Match. rewrite Hev.
  cbn -[MessageFromContext].
  destruct (MatchString re _); reflexivity.
Qed.

(** X8: a pattern matcher needs a message event. On a context from which
    [MessageFromContext] returns nil, [RegexpMatcher.Match] panics (it
    reads the text through the nil pointer), and so does [Route.Match] of
    a route without build error, with a handler and without preprocessor
    whose first matcher is a pattern matcher: the self-talk filter lets
    such a context through. *)
Theorem RegexpMatcher_needs_message (r : Route) (regex : option Regexp)
    (botUserID : string) (ms : list Matcher) (h : HandlerFn) ctx out :
  MessageFromContext ctx = None ->
  Route_err r = None ->
  Route_handler r = Some h ->
  Route_preprocessor r = None ->
  Route_matchers r = RegexpMatcher regex botUserID :: ms ->
  Matcher_Match (RegexpMatcher regex botUserID) ctx = Panics /\
  Route_Match r ctx out = Panics.
Proof.
  intros Hev He Hh Hp Hms.
  assert (Hm : Matcher_Match (RegexpMatcher regex botUserID) ctx = Panics).
  { simpl. unfold RegexpMatcher_Match. rewrite Hev. reflexivity. }
  split; [exact Hm|].
  rewrite Route_Match_eq, He, Hh, Hp, Hms. unfold selfTalkBlocked.
  rewrite Hev. cbn [apply_preprocessor matchers_loop]. rewrite Hm.
  reflexivity.
Qed.

(** ** The bot identity *)





(** ** Chains of builder calls *)

Lemma Route_call_err (c : RouteCall) (r : Route) :
  Route_err (Route_call c r) = last_compile_error [c] (Route_err r).
Proof.
  destruct c; simpl; try reflexivity.
  - apply Route_Hear_err.
  - unfold Route_Handler. destruct (Route_err r) eqn:E; simpl; congruence.
  - unfold Route_MessageHandler, Route_Handler.
    destruct (Route_err r) eqn:E; simpl; congruence.
Qed.

Lemma last_compile_error_cons (c : RouteCall) (cs : list RouteCall)
    (e : error) :
  last_compile_error (c :: cs) e =
  last_compile_error cs (last_compile_error [c] e).
Proof.
  destruct c; simpl; try reflexivity.
  destruct (regexp_Compile regex); reflexivity.
Qed.

(** X10: the build error of a route after a chain of builder calls is the
    error of the last [Hear] of the chain whose pattern does not compile,
    and the error the route had before the chain if there is none. No
    call clears an error, no call other than a failing [Hear] sets one,
    and a later failing [Hear] replaces the error of an earlier one. *)
Theorem Route_err_after_calls (cs : list RouteCall) (r : Route) :
  Route_err (Route_calls cs r) = last_compile_error cs (Route_err r).
Proof.
  revert r. induction cs as [|c cs IH]; intros r; [reflexivity|].
  rewrite last_compile_error_cons, <- Route_call_err.
  exact (IH (Route_call c r)).
Qed.

Lemma last_compile_error_stays (cs : list RouteCall) (e : error) :
  e <> None -> last_compile_error cs e <> None.
Proof.
  revert e. induction cs as [|c cs IH]; intros e He; [exact He|].
  destruct c; simpl; try (apply IH; exact He).
  destruct (regexp_Compile regex); apply IH; [exact He | discriminate].
Qed.

Lemma Route_call_errored_handler (c : RouteCall) (r : Route) :
  Route_err r <> None -> Route_handler (Route_call c r) = Route_handler r.
Proof.
  intros He. destruct c; simpl; try reflexivity.
  - unfold Route_Hear, Route_addRegexpMatcher.
    destruct (regexp_Compile regex); reflexivity.
  - unfold Route_Handler. destruct (Route_err r); [reflexivity|contradiction].
  - unfold Route_MessageHandler, Route_Handler.
    destruct (Route_err r); [reflexivity|contradiction].
Qed.

(** X11: a route with a build error stays out of the game. Whatever
    builder calls follow, [Handler] and [MessageHandler] among them, the
    route keeps a build error and the handler it had, and [Route.Match]
    returns no-match with the context and the output record it was
    given. *)
Theorem errored_route_stays_disabled (cs : list RouteCall) (r : Route)
    ctx out :
  Route_err r <> None ->
  Route_err (Route_calls cs r) <> None /\
  Route_handler (Route_calls cs r) = Route_handler r /\
  Route_Match (Route_calls cs r) ctx out = Returns (false, ctx, out).
Proof.
  intros He.
  assert (Herr : Route_err (Route_calls cs r) <> None).
  { rewrite Route_err_after_calls. apply last_compile_error_stays, He. }
  split; [exact Herr|]. split.
  - revert r He Herr. induction cs as [|c cs IH]; intros r He _; [reflexivity|].
    change (Route_calls (c :: cs) r) with (Route_calls cs (Route_call c r)).
    assert (He' : Route_err (Route_call c r) <> None).
    { rewrite Route_call_err. apply (last_compile_error_stays [c]), He. }
    rewrite (IH _ He').
    + apply Route_call_errored_handler, He.
    + rewrite Route_err_after_calls. apply last_compile_error_stays, He'.
  - rewrite Route_Match_eq.
    destruct (Route_err (Route_calls cs r)); [reflexivity | contradiction].
Qed.

Lemma Route_call_keeps_handler (c : RouteCall) (r : Route) :
  sets_handler c = false -> Route_handler (Route_call c r) = Route_handler r.
Proof.
  destruct c; simpl; try reflexivity; try discriminate. intros _.
  unfold Route_Hear, Route_addRegexpMatcher.
  destruct (regexp_Compile regex); reflexivity.
Qed.

(** X12: a route matches nothing before [Handler] or [MessageHandler] is
    called on it. The route that [newRoute] creates, after any chain of
    builder calls none of which is [Handler] or [MessageHandler], has no
    handler, and [Route.Match] returns no-match with the context and the
    output record it was given, whatever matchers, preprocessor and
    subrouter the chain installed. *)
Theorem route_without_Handler_call_never_matches (cs : list RouteCall)
    (err : error) (selftalk : bool) ctx out :
  forallb (fun c => negb (sets_handler c)) cs = true ->
  Route_handler (Route_calls cs (new_Route err selftalk)) = None /\
  Route_Match (Route_calls cs (new_Route err selftalk)) ctx out
    = Returns (false, ctx, out).
Proof.
  intros Hcs.
  assert (Hh : forall r, Route_handler (Route_calls cs r) = Route_handler r).
  { induction cs as [|c cs IH]; intros r; [reflexivity|].
    simpl in Hcs. apply andb_true_iff in Hcs. destruct Hcs as [Hc Hcs].
    change (Route_calls (c :: cs) r) with (Route_calls cs (Route_call c r)).
    rewrite (IH Hcs). apply Route_call_keeps_handler.
    apply negb_true_iff, Hc. }
  split; [apply Hh|].
  apply Route_without_handler. apply Hh.
Qed.

(** ** Subrouters *)

(** X13: [Subrouter()] always attaches a new router without routes. A
    second call on the same route discards the subrouter of the first
    call with everything registered in it, and right after a call the
    route matches nothing, whatever it matched before. *)
Theorem Subrouter_starts_empty (r : Route)
    (call : SimpleRouter -> SimpleRouter) ctx out :
  Route_Subrouter (Route_on_subrouter call (Route_Subrouter r))
    = Route_Subrouter r /\
  ~ matched (Route_Match (Route_Subrouter r) ctx out).
Proof.
  split; [reflexivity|].
  intros (c & o & H). rewrite Route_Match_eq in H. simpl in H.
  destruct (Route_err r); [discriminate|].
  destruct (Route_handler r); [|discriminate].
  destruct (selfTalkBlocked _ _ _); [discriminate|].
  destruct (apply_preprocessor _ _); [|discriminate].
  destruct (matchers_loop _ _) as [[[] c2]|]; discriminate.
Qed.

(** ** The context keys *)

(** The two references do not get in each other's way, and nothing
    stored under a key of another package gets in theirs: storing a
    message event leaves the bot reference of the context as it is,
    storing a bot leaves the message event as it is, and a value under a
    foreign key leaves both. *)
Lemma context_keys_do_not_collide (ctx : Context) :
  (forall msg, BotFromContext (AddMessageToContext ctx msg)
               = BotFromContext ctx) /\
  (forall bot, MessageFromContext (AddBotToContext ctx bot)
               = MessageFromContext ctx) /\
  (forall n v, BotFromContext (WithValue ctx (ForeignKey n) v)
               = BotFromContext ctx /\
               MessageFromContext (WithValue ctx (ForeignKey n) v)
               = MessageFromContext ctx).
Proof. repeat split. Qed.

(** ** The dispatcher *)

(** X14: the dispatcher calls a handler exactly when the router matches.
    The call is made with the handler of the output record and the
    context the match returned; the test for a nil handler never drops a
    match, as a route that matches has a handler. On no-match nothing is
    called. *)
Theorem dispatch_calls_the_matched_handler (self : nat) (b : Bot)
    (ev : MessagePtr) :
  let ctx := AddMessageToContext (AddBotToContext Background (Some self)) ev in
  let res := Router_Match (Bot_SimpleRouter b) ctx (mkRouteMatch None None) in
  (forall c o, res = Returns (true, c, o) ->
     exists h, Match_Handler o = Some h /\
               Bot_dispatch self b ev = Returns (Some (h, c))) /\
  (forall c o, res = Returns (false, c, o) ->
     Bot_dispatch self b ev = Returns None) /\
  (forall h c, Bot_dispatch self b ev = Returns (Some (h, c)) ->
     exists o, res = Returns (true, c, o) /\ Match_Handler o = Some h).
Proof.
  intros ctx res. unfold Bot_dispatch. fold ctx. fold res.
  split; [|split].
  - intros c o H.
    destruct (proj2 frame_all _ _ _ _ _ _ H)
      as (r & _ & r' & h & _ & _ & _ & ->).
    exists h. rewrite H. split; reflexivity.
  - intros c o H. rewrite H. reflexivity.
  - intros h c. destruct res as [[[[] c1] o1]|]; simpl; [| |discriminate].
    + destruct (Match_Handler o1) as [h1|] eqn:Eh; [|discriminate].
      intros [= <- <-]. exists o1. split; [reflexivity | exact Eh].
    + discriminate.
Qed.

(** X15: what a handler receives. When the router of the bot holds only
    routes without preprocessor whose matchers are those of the package
    (subrouters included), the context a handler is called with is the
    context the dispatcher built: the closure of [MessageHandler] passes
    the dispatching bot and the dispatched event to its function. *)
Theorem dispatch_hands_over_bot_and_event (self : nat) (b : Bot)
    (ev : MessagePtr) (h : HandlerFn) (c : Context) :
  Router_plain (Bot_SimpleRouter b) = true ->
  Bot_dispatch self b ev = Returns (Some (h, c)) ->
  MessageHandler_arguments c = (c, Some self, ev).
Proof.
  intros Hp. unfold Bot_dispatch.
  destruct (Router_Match _ _ _) as [[[[] c1] o1]|] eqn:E; simpl;
    [| discriminate..].
  destruct (Match_Handler o1); [|discriminate]. intros [= _ <-].
  rewrite (proj2 plain_keeps_all _ Hp _ _ _ _ _ E). reflexivity.
Qed.

(** X16: the bot does not answer itself. Once [setBotID(ID)] was called
    on the bot, an event whose author is [ID] calls no handler if every
    route registered on the bot has self-talk disabled, whatever the
    routes hold otherwise. *)
Theorem bot_does_not_answer_itself (self : nat) (b : Bot) (ID : string)
    (ev : MessageRef) :
  User (msg_event ev) = ID ->
  Forall (fun r => Route_talkToSelf r = false)
         (Router_routes (Bot_SimpleRouter b)) ->
  BotUserID (Bot_setBotID ID b) = ID /\
  Bot_dispatch self (Bot_setBotID ID b) (Some ev) = Returns None.
Proof.
  intros Hu Hall. split; [reflexivity|].
  unfold Bot_dispatch.
  set (ctx := AddMessageToContext _ _).
  set (out := mkRouteMatch None None).
  assert (H : Router_Match (Bot_SimpleRouter (Bot_setBotID ID b)) ctx out
              = Returns (false, ctx, out)).
  { rewrite Router_Match_eq. simpl.
    destruct (Router_err (Bot_SimpleRouter b)); [reflexivity|].
    apply routes_loop_all_refuse.
    apply List.Forall_forall. intros r' Hin.
    apply List.in_map_iff in Hin. destruct Hin as (r & <- & Hin).
    exists ctx, out. rewrite Route_Match_eq. simpl.
    destruct (Route_err r); [reflexivity|].
    destruct (Route_handler r); [|reflexivity].
    rewrite (proj1 (List.Forall_forall _ _) Hall r Hin).
    rewrite (selfTalkBlocked_own ID ctx ev eq_refl Hu). reflexivity. }
  rewrite H. reflexivity.
Qed.

End Further.

(** * Examples for the further properties *)

Section FurtherExamples.

Local Existing Instance Sample.externals.

Import Sample.

Lemma TypesMatcher_is_disjunction_witness :
  Matcher_Match (TypesMatcher [DirectMessage; 5%Z; DirectMention] "UBOT")
                (ctx_of mention)
    = Returns (true, ctx_of mention).
Proof.
  exact (TypesMatcher_is_disjunction [DirectMessage; 5%Z; DirectMention]
           "UBOT" (ctx_of mention) false true eq_refl eq_refl).
Defined.

Lemma plain_routes_keep_context_witness :
  Route_plain hear_ping = true /\
  Router_plain (Router_SetBotID "UBOT" nested) = true /\
  (exists b c o,
     Route_Match hear_ping (ctx_of mention) out0 = Returns (b, c, o) /\
     c = ctx_of mention) /\
  (exists b c o,
     Router_Match (Router_SetBotID "UBOT" nested) (ctx_of mention) out0
       = Returns (b, c, o) /\
     c = ctx_of mention).
Proof.
  split; [reflexivity|]. split; [reflexivity|]. split.
  - exists true, (ctx_of mention), (mkRouteMatch (Some hear_ping) hA).
    split; [reflexivity|].
    exact (proj1 plain_routes_keep_context hear_ping (ctx_of mention) out0
             true (ctx_of mention) (mkRouteMatch (Some hear_ping) hA)
             eq_refl eq_refl).
  - exists false, (ctx_of mention), out0.
    split; [reflexivity|].
    exact (proj2 plain_routes_keep_context (Router_SetBotID "UBOT" nested)
             (ctx_of mention) out0 false (ctx_of mention) out0
             eq_refl eq_refl).
Defined.

Lemma Hear_route_matches_stripped_text_witness :
  Route_Match hear_ping (ctx_of ping) out0
    = Returns (true, ctx_of ping, mkRouteMatch (Some hear_ping) hA) /\
  Route_Match hear_ping (ctx_of mention) out0
    = Returns (true, ctx_of mention, mkRouteMatch (Some hear_ping) hA).
Proof.
  split.
  - exact (Hear_route_matches_stripped_text "ping"
             (mkRegexp (fun text => String.eqb text "ping"))
             (UserHandler 1) false "" (ctx_of ping) out0
             (mkMessageRef 1 ping) eq_refl eq_refl).
  - exact (Hear_route_matches_stripped_text "ping"
             (mkRegexp (fun text => String.eqb text "ping"))
             (UserHandler 1) false "" (ctx_of mention) out0
             (mkMessageRef 1 mention) eq_refl eq_refl).
Defined.

Lemma RegexpMatcher_needs_message_witness :
  Route_Match hear_ping (AddBotToContext Background (Some 0%nat)) out0
    = Panics.
Proof.
  exact (proj2 (RegexpMatcher_needs_message hear_ping
                  (Some (mkRegexp (fun text => String.eqb text "ping")))
                  "" [] (UserHandler 1)
                  (AddBotToContext Background (Some 0%nat)) out0
                  eq_refl eq_refl eq_refl eq_refl eq_refl)).
Defined.

Lemma errored_route_stays_disabled_witness :
  Route_handler
    (Route_calls [CallHandler hA; CallAddMatcher always; CallTalkToSelf]
                 broken) = None /\
  Route_Match
    (Route_calls [CallHandler hA; CallAddMatcher always; CallTalkToSelf]
                 broken) (ctx_of ping) out0
    = Returns (false, ctx_of ping, out0).
Proof.
  assert (He : Route_err broken <> None) by discriminate.
  destruct (errored_route_stays_disabled
              [CallHandler hA; CallAddMatcher always; CallTalkToSelf]
              broken (ctx_of ping) out0 He) as (_ & Hh & Hm).
  split; [exact Hh | exact Hm].
Defined.

Lemma route_without_Handler_call_never_matches_witness :
  Route_Match
    (Route_calls [CallHear "ping"; CallTalkToSelf; CallSubrouter]
                 (new_Route None false)) (ctx_of ping) out0
    = Returns (false, ctx_of ping, out0).
Proof.
  exact (proj2 (route_without_Handler_call_never_matches
                  [CallHear "ping"; CallTalkToSelf; CallSubrouter]
                  None false (ctx_of ping) out0 eq_refl)).
Defined.

Lemma dispatch_calls_the_matched_handler_witness :
  exists h,
    hA = Some h /\
    Bot_dispatch 0 (mkBot two_routes "") (Some (mkMessageRef 1 ping))
      = Returns (Some (h, ctx_of ping)).
Proof.
  assert (H : Router_Match two_routes (ctx_of ping) (mkRouteMatch None None)
              = Returns (true, ctx_of ping,
                         mkRouteMatch (Some hear_ping) hA))
    by reflexivity.
  exact (proj1 (dispatch_calls_the_matched_handler 0 (mkBot two_routes "")
                  (Some (mkMessageRef 1 ping)))
           (ctx_of ping) (mkRouteMatch (Some hear_ping) hA) H).
Defined.

Lemma dispatch_hands_over_bot_and_event_witness :
  Bot_dispatch 0 ping_bot (Some (mkMessageRef 1 ping))
    = Returns (Some (MessageHandlerClosure (Some 7%nat), ctx_of ping)) /\
  MessageHandler_arguments (ctx_of ping)
    = (ctx_of ping, Some 0%nat, Some (mkMessageRef 1 ping)).
Proof.
  assert (H : Bot_dispatch 0 ping_bot (Some (mkMessageRef 1 ping))
              = Returns (Some (MessageHandlerClosure (Some 7%nat),
                               ctx_of ping)))
    by reflexivity.
  split; [exact H|].
  exact (dispatch_hands_over_bot_and_event 0 ping_bot
           (Some (mkMessageRef 1 ping)) (MessageHandlerClosure (Some 7%nat))
           (ctx_of ping) eq_refl H).
Defined.

Lemma bot_does_not_answer_itself_witness :
  Bot_dispatch 0 (Bot_setBotID "UBOT" (mkBot two_routes ""))
               (Some (mkMessageRef 1 own_ping)) = Returns None /\
  exists call,
    Bot_dispatch 0 (Bot_setBotID "UBOT" (mkBot two_routes ""))
                 (Some (mkMessageRef 1 ping)) = Returns (Some call).
Proof.
  split.
  - apply (bot_does_not_answer_itself 0 (mkBot two_routes "") "UBOT"
             (mkMessageRef 1 own_ping) eq_refl).
    repeat constructor.
  - eexists. reflexivity.
Defined.

End FurtherExamples.
